(** * Beancount's grammar engine: the Bison parser of [grammar.c]

    A shallow embedding of [src/python/beancount/parser/grammar.c] (the LALR(1)
    tables, the [yyparse] driver, the semantic actions that call the Builder)
    and of the token enumeration of [grammar.h].

    What is left out: reference counting ([Py_INCREF], [Py_DECREF], the [clean]
    argument of [BUILDY]), the allocation of the message buffer of
    [yysyntax_error], the [YYDPRINTF] traces and the columns' use (none of the
    actions reads a column).  The lexer ([yylex]) and the Builder are not part
    of these files: the lexer is the list of tokens it returns, the Builder is
    an oracle answering each call from the calls made so far. *)

From Stdlib Require Import ZArith List String Ascii Bool Lia.
Import ListNotations.
Local Open Scope Z_scope.


(** ** Token kinds *)

(** [enum yytokentype] of grammar.h (lines 46-86), as the header declares it:
    enumerator name and value. *)
Module GrammarH.

Definition yytokentype : list (string * Z) :=
[ ("ERROR", 258); ("INDENT", 259); ("EOL", 260); ("COMMENT", 261);
  ("SKIPPED", 262); ("PIPE", 263); ("ATAT", 264); ("AT", 265);
  ("LCURLCURL", 266); ("RCURLCURL", 267); ("LCURL", 268); ("RCURL", 269);
  ("EQUAL", 270); ("COMMA", 271); ("SLASH", 272); ("PLUS", 273);
  ("FLAG", 274); ("TXN", 275); ("BALANCE", 276); ("OPEN", 277);
  ("CLOSE", 278); ("PAD", 279); ("EVENT", 280); ("PRICE", 281);
  ("NOTE", 282); ("DOCUMENT", 283); ("PUSHTAG", 284); ("POPTAG", 285);
  ("OPTION", 286); ("PLUGIN", 287); ("DATE", 288); ("ACCOUNT", 289);
  ("CURRENCY", 290); ("STRING", 291); ("NUMBER", 292); ("TAG", 293);
  ("LINK", 294); ("KEY", 295) ]%string.

End GrammarH.

(** [enum yytokentype] of grammar.c (lines 197-247). *)
Inductive yytokentype : Set :=
  | LEX_ERROR | INDENT | EOL | COMMENT | SKIPPED | PIPE | ATAT | AT
  | LCURLCURL | RCURLCURL | LCURL | RCURL | EQUAL | COMMA | TILDE | HASH
  | ASTERISK | SLASH | PLUS | MINUS | LPAREN | RPAREN | FLAG | TXN | BALANCE
  | OPEN | CLOSE | COMMODITY | PAD | EVENT | PRICE | NOTE | DOCUMENT
  | PUSHTAG | POPTAG | OPTION | INCLUDE | PLUGIN | BOOL | DATE | ACCOUNT
  | CURRENCY | STRING | NUMBER | TAG | LINK | KEY | NEGATIVE.

Definition token_code (t : yytokentype) : Z :=
  match t with
  | LEX_ERROR => 258 | INDENT => 259 | EOL => 260 | COMMENT => 261
  | SKIPPED => 262 | PIPE => 263 | ATAT => 264 | AT => 265
  | LCURLCURL => 266 | RCURLCURL => 267 | LCURL => 268 | RCURL => 269
  | EQUAL => 270 | COMMA => 271 | TILDE => 272 | HASH => 273
  | ASTERISK => 274 | SLASH => 275 | PLUS => 276 | MINUS => 277
  | LPAREN => 278 | RPAREN => 279 | FLAG => 280 | TXN => 281
  | BALANCE => 282 | OPEN => 283 | CLOSE => 284 | COMMODITY => 285
  | PAD => 286 | EVENT => 287 | PRICE => 288 | NOTE => 289
  | DOCUMENT => 290 | PUSHTAG => 291 | POPTAG => 292 | OPTION => 293
  | INCLUDE => 294 | PLUGIN => 295 | BOOL => 296 | DATE => 297
  | ACCOUNT => 298 | CURRENCY => 299 | STRING => 300 | NUMBER => 301
  | TAG => 302 | LINK => 303 | KEY => 304 | NEGATIVE => 305
  end.

Definition token_name (t : yytokentype) : string :=
  match t with
  | LEX_ERROR => "LEX_ERROR" | INDENT => "INDENT" | EOL => "EOL"
  | COMMENT => "COMMENT" | SKIPPED => "SKIPPED" | PIPE => "PIPE"
  | ATAT => "ATAT" | AT => "AT" | LCURLCURL => "LCURLCURL"
  | RCURLCURL => "RCURLCURL" | LCURL => "LCURL" | RCURL => "RCURL"
  | EQUAL => "EQUAL" | COMMA => "COMMA" | TILDE => "TILDE" | HASH => "HASH"
  | ASTERISK => "ASTERISK" | SLASH => "SLASH" | PLUS => "PLUS"
  | MINUS => "MINUS" | LPAREN => "LPAREN" | RPAREN => "RPAREN"
  | FLAG => "FLAG" | TXN => "TXN" | BALANCE => "BALANCE" | OPEN => "OPEN"
  | CLOSE => "CLOSE" | COMMODITY => "COMMODITY" | PAD => "PAD"
  | EVENT => "EVENT" | PRICE => "PRICE" | NOTE => "NOTE"
  | DOCUMENT => "DOCUMENT" | PUSHTAG => "PUSHTAG" | POPTAG => "POPTAG"
  | OPTION => "OPTION" | INCLUDE => "INCLUDE" | PLUGIN => "PLUGIN"
  | BOOL => "BOOL" | DATE => "DATE" | ACCOUNT => "ACCOUNT"
  | CURRENCY => "CURRENCY" | STRING => "STRING" | NUMBER => "NUMBER"
  | TAG => "TAG" | LINK => "LINK" | KEY => "KEY" | NEGATIVE => "NEGATIVE"
  end%string.

Definition all_tokens : list yytokentype :=
  [ LEX_ERROR; INDENT; EOL; COMMENT; SKIPPED; PIPE; ATAT; AT; LCURLCURL;
    RCURLCURL; LCURL; RCURL; EQUAL; COMMA; TILDE; HASH; ASTERISK; SLASH;
    PLUS; MINUS; LPAREN; RPAREN; FLAG; TXN; BALANCE; OPEN; CLOSE; COMMODITY;
    PAD; EVENT; PRICE; NOTE; DOCUMENT; PUSHTAG; POPTAG; OPTION; INCLUDE;
    PLUGIN; BOOL; DATE; ACCOUNT; CURRENCY; STRING; NUMBER; TAG; LINK; KEY;
    NEGATIVE ].

(** The enumeration of grammar.c in the shape of the header's. *)
Definition yytokentype_c : list (string * Z) :=
  map (fun t => (token_name t, token_code t)) all_tokens.

(** The value an enumeration gives a name, when it declares the name. *)
Fixpoint enum_value (e : list (string * Z)) (name : string) : option Z :=
  match e with
  | [] => None
  | (n, v) :: rest => if String.eqb n name then Some v else enum_value rest name
  end.

(** ** Python objects, as far as the parser handles them *)

(** Modelled from the spec: the host runtime's Decimal is not part of the
    repository.  "Decimal: arbitrary-precision fixed-point; preserves the
    number of fractional digits as written": the integer [coef] scaled by ten
    to the power [expo], so that [1.50] is [150] with exponent [-2]. *)
Record Decimal : Set := mkDecimal { coef : Z; expo : Z }.

Inductive PyObject : Set :=
  | NULL                                   (* the null pointer *)
  | Py_None
  | Py_True
  | Py_False
  | PyUnicode (s : string)                 (* str; also what PyErr_SetString stores *)
  | PyDecimal (d : Decimal)                (* the value of a NUMBER token *)
  | PyDate (year month day : Z)            (* the value of a DATE token *)
  | PyType (name : string)                 (* an exception class *)
  | PyNode (method : string) (args : list PyArg)   (* an object a Builder method made *)
(** One argument of [PyObject_CallMethod], by its format character. *)
with PyArg : Set :=
  | arg_s (s : string)
  | arg_i (i : Z)
  | arg_O (o : PyObject)
  | arg_b (c : ascii).

(** What a call into Python gives back: an object, or NULL with the error
    indicator set to [exc] (type and value); [Raise None] is a NULL result
    with no exception set. *)
Inductive PyResult : Set :=
  | Return (o : PyObject)
  | Raise (exc : option (PyObject * PyObject)).

Definition is_NULL (o : PyObject) : bool :=
  match o with NULL => true | _ => false end.

(** ** Decimal arithmetic *)

(** Modelled from the spec: the arithmetic of the host runtime's Decimal, which
    the [PyNumber_*] calls of the [number_expr] actions reach.  "All
    operations are performed in arbitrary-precision decimal; division that
    cannot be represented exactly is carried to the configured precision
    (default 28 digits, banker's rounding)." *)
Definition dec_scale (a b : Decimal) : Z := Z.min (expo a) (expo b).

Definition dec_add (a b : Decimal) : Decimal :=
  let e := dec_scale a b in
  mkDecimal (coef a * 10 ^ (expo a - e) + coef b * 10 ^ (expo b - e)) e.

Definition dec_sub (a b : Decimal) : Decimal :=
  let e := dec_scale a b in
  mkDecimal (coef a * 10 ^ (expo a - e) - coef b * 10 ^ (expo b - e)) e.

Definition dec_mul (a b : Decimal) : Decimal :=
  mkDecimal (coef a * coef b) (expo a + expo b).

Definition dec_neg (a : Decimal) : Decimal :=
  mkDecimal (- coef a) (expo a).

Definition dec_prec : Z := 28.

Fixpoint ndigits_fuel (fuel : nat) (n : Z) : Z :=
  match fuel with
  | O => 1
  | S k => if n <? 10 then 1 else 1 + ndigits_fuel k (n / 10)
  end.

(** Number of decimal digits of a non-negative integer. *)
Definition ndigits (n : Z) : Z := ndigits_fuel (Z.to_nat (Z.log2 n)) n.

(** Drop trailing zeros of an exact quotient while its exponent is below the
    ideal one. *)
Fixpoint dec_strip (fuel : nat) (q e ideal : Z) : Z * Z :=
  match fuel with
  | O => (q, e)
  | S k =>
      if (e <? ideal) && (q mod 10 =? 0) then dec_strip k (q / 10) (e + 1) ideal
      else (q, e)
  end.

(** Round a non-negative coefficient to [dec_prec] digits, half to even;
    [sticky] says that digits beyond [q] were not all zero. *)
Definition dec_round (q e : Z) (sticky : bool) : Z * Z :=
  let k := ndigits q - dec_prec in
  if k <=? 0 then (q, e)
  else
    let h := q / 10 ^ k in
    let l := q mod 10 ^ k in
    let up :=
      if 2 * l >? 10 ^ k then true
      else if 2 * l =? 10 ^ k then sticky || Z.odd h
      else false in
    ((if up then h + 1 else h), e + k).

Definition dec_div (a b : Decimal) : option Decimal :=
  if coef b =? 0 then None
  else
    let x := Z.abs (coef a) in
    let y := Z.abs (coef b) in
    let ideal := expo a - expo b in
    let shift := ndigits y - ndigits x + dec_prec + 1 in
    let '(q, r) :=
      if 0 <=? shift then Z.div_eucl (x * 10 ^ shift) y
      else Z.div_eucl x (y * 10 ^ (- shift)) in
    let '(q1, e1) :=
      if r =? 0 then dec_strip (Z.to_nat (Z.abs shift) + 1) q (ideal - shift) ideal
      else (q, ideal - shift) in
    let '(q2, e2) := dec_round q1 e1 (negb (r =? 0)) in
    Some (mkDecimal (Z.sgn (coef a) * Z.sgn (coef b) * q2) e2).

(** The number protocol on the objects of the model.  An operand that is not
    a Decimal makes the call fail (NULL and a pending exception). *)
Definition type_error : PyResult :=
  Raise (Some (PyType "TypeError", PyUnicode "unsupported operand type(s)")).

Definition binary_op (f : Decimal -> Decimal -> option Decimal)
    (v w : PyObject) : PyResult :=
  match v, w with
  | PyDecimal x, PyDecimal y =>
      match f x y with
      | Some d => Return (PyDecimal d)
      | None =>
          Raise (Some (PyType "DivisionByZero", PyUnicode "division by zero"))
      end
  | _, _ => type_error
  end.

Definition PyNumber_Add := binary_op (fun x y => Some (dec_add x y)).
Definition PyNumber_Subtract := binary_op (fun x y => Some (dec_sub x y)).
Definition PyNumber_Multiply := binary_op (fun x y => Some (dec_mul x y)).
Definition PyNumber_TrueDivide := binary_op dec_div.

Definition PyNumber_Negative (v : PyObject) : PyResult :=
  match v with
  | PyDecimal x => Return (PyDecimal (dec_neg x))
  | _ => type_error
  end.

(** ** The tables of the automaton (grammar.c lines 536-841) *)

Definition YYFINAL : Z := 33.
Definition YYLAST : Z := 196.
Definition YYNTOKENS : Z := 51.
Definition YYNNTS : Z := 43.
Definition YYNRULES : Z := 108.
Definition YYNSTATES : Z := 192.
Definition YYUNDEFTOK : Z := 2.
Definition YYMAXUTOK : Z := 305.
Definition YYPACT_NINF : Z := -75.
Definition YYTABLE_NINF : Z := -109.
Definition YYTERROR : Z := 1.
Definition YYMAXDEPTH : Z := 10000.

(** [yytranslate]: 0 for end of input, 2 (undefined) for the character codes
    1..255 and for 257, 1 for the error code 256, and 3..50 for the token
    codes 258..305. *)
Definition yytranslate : list Z :=
  0 :: repeat 2 255 ++
  [ 1; 2; 3; 4; 5; 6; 7; 8; 9; 10; 11; 12; 13; 14; 15; 16; 17; 18; 19; 20;
    21; 22; 23; 24; 25; 26; 27; 28; 29; 30; 31; 32; 33; 34; 35; 36; 37; 38;
    39; 40; 41; 42; 43; 44; 45; 46; 47; 48; 49; 50 ].

Definition yypact : list Z :=
[ (-75); (-75); 95; 37; (-75); (-3); (-75); 8; (-75); (-27);
  1; (-1); 34; 38; 128; (-75); (-75); (-75); (-75); (-75);
  (-75); (-75); (-75); (-75); (-75); (-75); (-75); (-75); (-75); (-75);
  (-75); (-75); (-75); (-75); (-75); (-75); 25; 25; 40; 25;
  13; (-75); (-75); (-75); 61; 80; 84; (-4); 93; 49;
  94; 96; 103; (-75); (-75); 136; (-75); (-75); 25; (-75);
  25; (-75); 98; 104; 25; 25; 123; 124; 98; 125;
  127; (-75); 2; (-75); (-75); (-75); 98; 98; 98; (-75);
  (-5); 25; (-75); (-75); (-7); (-75); (-75); 25; 25; 53;
  25; 25; (-75); 25; (-75); (-75); (-75); (-75); (-75); (-75);
  (-75); 157; 98; 98; 98; 98; 98; (-75); (-75); 138;
  (-75); (-75); 25; (-75); 169; 169; (-75); (-75); (-75); (-75);
  (-75); (-75); (-75); 185; (-75); 86; (-75); (-75); 51; 51;
  169; (-75); (-75); 141; (-75); 169; 169; 169; 169; 169;
  (-14); (-75); (-75); (-75); 169; 70; (-75); (-75); (-75); 148;
  (-75); (-75); (-75); (-75); (-75); (-75); (-75); 53; 25; (-75);
  20; (-75); (-75); 179; 72; 129; (-75); 98; 98; (-75);
  (-75); (-75); (-12); 166; 15; (-75); 7; (-75); 25; 25;
  98; (-75); (-75); 129; 129; (-75); (-75); (-75); 149; (-75);
  (-75); (-75) ].

Definition yydefact : list Z :=
[ 2; 107; 0; 0; 106; 11; 8; 12; 97; 0;
  0; 0; 0; 0; 0; 98; 83; 99; 100; 85;
  86; 92; 87; 84; 91; 88; 89; 90; 105; 101;
  102; 103; 104; 1; 10; 9; 0; 0; 0; 0;
  0; 5; 4; 3; 0; 0; 0; 0; 0; 0;
  0; 0; 0; 2; 6; 0; 52; 53; 0; 94;
  0; 95; 0; 2; 0; 0; 0; 0; 0; 0;
  0; 21; 0; 7; 93; 96; 0; 0; 0; 13;
  0; 0; 50; 49; 2; 2; 2; 0; 0; 0;
  0; 0; 81; 0; 25; 22; 24; 23; 2; 19;
  18; 0; 0; 0; 0; 0; 0; 62; 2; 0;
  55; 56; 0; 47; 57; 58; 2; 2; 61; 2;
  2; 2; 44; 26; 20; 0; 16; 17; 14; 15;
  60; 51; 2; 0; 48; 59; 79; 78; 80; 82;
  2; 46; 45; 63; 54; 2; 28; 29; 27; 0;
  40; 37; 36; 38; 35; 39; 43; 41; 0; 42;
  0; 34; 33; 68; 0; 2; 69; 0; 0; 30;
  76; 77; 71; 65; 0; 75; 0; 72; 0; 0;
  2; 66; 70; 2; 2; 32; 31; 64; 0; 73;
  74; 67 ].

Definition yypgoto : list Z :=
[ (-75); 0; (-75); (-36); (-75); (-16); (-75); (-75); (-75); (-75);
  71; (-75); (-75); (-52); (-75); (-75); (-75); (-75); (-75); (-75);
  (-75); (-75); (-75); (-42); (-75); 16; (-75); (-75); (-75); (-75);
  (-74); (-75); (-75); (-75); (-75); (-75); (-75); (-75); (-75); (-75);
  (-75); (-75); (-75) ].

Definition yydefgoto : list Z :=
[ (-1); 113; 53; 56; 15; 89; 72; 16; 149; 141;
  134; 158; 123; 114; 84; 17; 18; 19; 112; 20;
  21; 22; 23; 90; 81; 174; 175; 164; 166; 176;
  177; 24; 25; 26; 93; 27; 28; 29; 30; 31;
  32; 2; 3 ].

Definition yytable : list Z :=
[ 1; 57; 34; 59; 61; 146; (-64); 54; 55; 109;
  94; 147; 102; 35; 103; 104; 105; 106; 54; 55;
  36; 182; 74; 183; 75; 54; 55; 184; 85; 86;
  54; 55; (-64); 180; 115; 145; 98; 33; 110; 107;
  65; 76; 77; 78; 38; 108; 80; 95; 37; 96;
  97; 116; 117; 71; 119; 120; 130; 121; 60; 181;
  99; 100; 101; 83; 135; 136; 79; 137; 138; 139;
  103; 104; 103; 104; 105; 106; 132; 54; 55; 39;
  144; 167; 168; 40; 111; 58; 125; 126; 127; 128;
  129; 76; 77; 78; 67; (-108); 4; 118; 122; 5;
  6; 7; 8; 159; 62; 103; 104; 105; 106; 189;
  190; 150; 151; 152; 153; 154; 79; 155; 163; 76;
  77; 78; 161; 63; 162; 178; 179; 64; 169; 157;
  143; 9; 10; 11; 12; 13; 66; 14; 68; 69;
  148; 73; 185; 186; 79; 156; 70; 41; 82; 173;
  76; 77; 78; 42; 43; 44; 45; 46; 47; 48;
  49; 50; 51; 52; 173; 172; 87; 173; 173; 88;
  91; 170; 92; 133; 171; 79; 103; 104; 105; 106;
  187; 124; 131; 187; 187; 103; 104; 105; 106; 140;
  145; 160; 165; 191; 142; 0; 188 ].

Definition yycheck : list Z :=
[ 0; 37; 5; 39; 40; 19; 18; 5; 6; 16;
  8; 25; 17; 5; 19; 20; 21; 22; 5; 6;
  47; 14; 58; 16; 60; 5; 6; 20; 64; 65;
  5; 6; 44; 18; 86; 49; 72; 0; 45; 44;
  44; 21; 22; 23; 45; 81; 62; 45; 47; 47;
  48; 87; 88; 53; 90; 91; 108; 93; 45; 44;
  76; 77; 78; 63; 116; 117; 46; 119; 120; 121;
  19; 20; 19; 20; 21; 22; 112; 5; 6; 45;
  132; 9; 10; 45; 84; 45; 102; 103; 104; 105;
  106; 21; 22; 23; 45; 0; 1; 44; 98; 4;
  5; 6; 7; 145; 43; 19; 20; 21; 22; 183;
  184; 41; 42; 43; 44; 45; 46; 47; 160; 21;
  22; 23; 158; 43; 160; 167; 168; 43; 164; 145;
  44; 36; 37; 38; 39; 40; 43; 42; 44; 43;
  140; 5; 178; 179; 46; 145; 43; 19; 44; 165;
  21; 22; 23; 25; 26; 27; 28; 29; 30; 31;
  32; 33; 34; 35; 180; 165; 43; 183; 184; 45;
  45; 42; 45; 4; 45; 46; 19; 20; 21; 22;
  180; 24; 44; 183; 184; 19; 20; 21; 22; 4;
  49; 43; 13; 44; 123; (-1); 180 ].

Definition yystos : list Z :=
[ 0; 52; 92; 93; 1; 4; 5; 6; 7; 36;
  37; 38; 39; 40; 42; 55; 58; 66; 67; 68;
  70; 71; 72; 73; 82; 83; 84; 86; 87; 88;
  89; 90; 91; 0; 5; 5; 47; 47; 45; 45;
  45; 19; 25; 26; 27; 28; 29; 30; 31; 32;
  33; 34; 35; 53; 5; 6; 54; 54; 45; 54;
  45; 54; 43; 43; 43; 44; 43; 45; 44; 43;
  43; 52; 57; 5; 54; 54; 21; 22; 23; 46;
  56; 75; 44; 52; 65; 54; 54; 43; 45; 56;
  74; 45; 45; 85; 8; 45; 47; 48; 54; 56;
  56; 56; 17; 19; 20; 21; 22; 44; 54; 16;
  45; 52; 69; 52; 64; 64; 54; 54; 44; 54;
  54; 54; 52; 63; 24; 56; 56; 56; 56; 56;
  64; 44; 54; 4; 61; 64; 64; 64; 64; 64;
  4; 60; 61; 44; 64; 49; 19; 25; 52; 59;
  41; 42; 43; 44; 45; 47; 52; 56; 62; 74;
  43; 54; 54; 74; 78; 13; 79; 9; 10; 54;
  42; 45; 52; 56; 76; 77; 80; 81; 74; 74;
  18; 44; 14; 16; 20; 54; 54; 52; 76; 81;
  81; 44 ].

Definition yyr1 : list Z :=
[ 0; 51; 52; 53; 53; 53; 54; 54; 55; 55;
  55; 55; 55; 56; 56; 56; 56; 56; 56; 56;
  56; 57; 57; 57; 57; 57; 58; 59; 59; 59;
  60; 60; 60; 60; 61; 62; 62; 62; 62; 62;
  62; 62; 62; 62; 63; 63; 63; 64; 64; 65;
  65; 65; 66; 67; 68; 69; 69; 70; 71; 72;
  73; 74; 75; 75; 76; 76; 77; 77; 78; 78;
  79; 80; 80; 80; 80; 81; 81; 81; 82; 83;
  84; 85; 86; 87; 87; 87; 87; 87; 87; 87;
  87; 87; 87; 88; 89; 90; 90; 91; 91; 91;
  91; 91; 91; 91; 92; 92; 92; 92; 93 ].

Definition yyr2 : list Z :=
[ 0; 2; 0; 1; 1; 1; 1; 2; 1; 2;
  2; 1; 1; 1; 3; 3; 3; 3; 2; 2;
  3; 1; 2; 2; 2; 2; 5; 1; 1; 1;
  5; 7; 7; 4; 4; 1; 1; 1; 1; 1;
  1; 1; 1; 1; 1; 2; 2; 1; 2; 1;
  1; 3; 3; 3; 7; 1; 1; 5; 5; 6;
  6; 2; 2; 4; 1; 1; 2; 4; 1; 2;
  3; 1; 1; 3; 3; 1; 1; 1; 6; 6;
  6; 1; 6; 1; 1; 1; 1; 1; 1; 1;
  1; 1; 1; 4; 3; 3; 4; 1; 1; 1;
  1; 1; 1; 1; 2; 2; 2; 1; 1 ].

Definition yytname : list string :=
[ "$end"; "error"; "$undefined"; "LEX_ERROR"; "INDENT"; "EOL";
  "COMMENT"; "SKIPPED"; "PIPE"; "ATAT"; "AT"; "LCURLCURL";
  "RCURLCURL"; "LCURL"; "RCURL"; "EQUAL"; "COMMA"; "TILDE";
  "HASH"; "ASTERISK"; "SLASH"; "PLUS"; "MINUS"; "LPAREN";
  "RPAREN"; "FLAG"; "TXN"; "BALANCE"; "OPEN"; "CLOSE";
  "COMMODITY"; "PAD"; "EVENT"; "PRICE"; "NOTE"; "DOCUMENT";
  "PUSHTAG"; "POPTAG"; "OPTION"; "INCLUDE"; "PLUGIN"; "BOOL";
  "DATE"; "ACCOUNT"; "CURRENCY"; "STRING"; "NUMBER"; "TAG";
  "LINK"; "KEY"; "NEGATIVE"; "$accept"; "empty"; "txn";
  "eol"; "empty_line"; "number_expr"; "txn_fields"; "transaction"; "optflag";
  "posting"; "key_value"; "key_value_value"; "posting_or_kv_list"; "key_value_list"; "currency_list";
  "pushtag"; "poptag"; "open"; "opt_booking"; "close"; "commodity";
  "pad"; "balance"; "amount"; "amount_tolerance"; "maybe_number"; "compound_amount";
  "position"; "lot_spec"; "lot_comp_list"; "lot_comp"; "price"; "event";
  "note"; "filename"; "document"; "entry"; "option"; "include";
  "plugin"; "directive"; "declarations"; "file" ]%string.

(** Table lookup, [table[i]] for an index the caller has checked. *)
Definition idx (table : list Z) (i : Z) : Z := nth (Z.to_nat i) table 0.

Definition YYTRANSLATE (yyx : Z) : Z :=
  if (0 <=? yyx) && (yyx <=? YYMAXUTOK) then idx yytranslate yyx else YYUNDEFTOK.

Definition yypact_value_is_default (yyn : Z) : bool := yyn =? YYPACT_NINF.

(** ** Semantic values, locations, tokens *)

(** [union YYSTYPE]; [VUninit] is a slot nothing has written. *)
Inductive YYSTYPE : Set :=
  | VUninit
  | VChar (character : ascii)
  | VObj (pyobj : PyObject)
  | VPair (pyobj1 pyobj2 : PyObject).

Record YYLTYPE : Set := mkLoc
  { first_line : Z; first_column : Z; last_line : Z; last_column : Z }.

(** Reading a member of the union.  The grammar reads the member its rules
    wrote; another member reads as the null character or pointer here. *)
Definition character_of (v : YYSTYPE) : ascii :=
  match v with VChar c => c | _ => zero end.
Definition pyobj_of (v : YYSTYPE) : PyObject :=
  match v with VObj o => o | VPair o _ => o | _ => NULL end.
Definition pyobj1_of (v : YYSTYPE) : PyObject :=
  match v with VPair o _ => o | VObj o => o | _ => NULL end.
Definition pyobj2_of (v : YYSTYPE) : PyObject :=
  match v with VPair _ o => o | _ => NULL end.

(** One result of [yylex]: the token, the value and location it stored in
    [yylval] and [yylloc], and the lexer's line counter [yylineno] after it. *)
Record token : Set := mkToken
  { tok_kind : yytokentype; tok_val : YYSTYPE; tok_loc : YYLTYPE; tok_lineno : Z }.

Inductive lookahead : Set :=
  | YYEMPTY
  | YYEOF
  | YYTOK (t : yytokentype).

(** The lookahead as the internal symbol number [yytoken]. *)
Definition yytoken_of (c : lookahead) : Z :=
  match c with
  | YYEMPTY => -2
  | YYEOF => 0
  | YYTOK t => YYTRANSLATE (token_code t)
  end.

(** One entry of the three parallel stacks [yyss], [yyvs], [yyls]. *)
Record frame : Set := mkFrame { f_state : Z; f_val : YYSTYPE; f_loc : YYLTYPE }.

(** A call of a Builder method: its name and its arguments. *)
Record call : Set := mkCall { method : string; args : list PyArg }.

(** The Builder: what a method returns, given the calls made before. *)
Definition Builder : Set := list call -> call -> PyResult.

Record parser : Set := mkParser
  { yystack : list frame;          (* top first; the bottom is state 0 *)
    yychar : lookahead;
    yylval : YYSTYPE;
    yylloc : YYLTYPE;
    yyerrstatus : Z;
    yynerrs : Z;
    input : list token;            (* what yylex has still to return *)
    yylineno : Z;
    calls : list call;             (* the Builder's calls, the last one first *)
    pyerr : option (PyObject * PyObject)   (* the error indicator *) }.

Definition with_stack (p : parser) (s : list frame) : parser :=
  mkParser s (yychar p) (yylval p) (yylloc p) (yyerrstatus p) (yynerrs p)
    (input p) (yylineno p) (calls p) (pyerr p).

Definition with_python (p : parser) (cs : list call)
    (e : option (PyObject * PyObject)) : parser :=
  mkParser (yystack p) (yychar p) (yylval p) (yylloc p) (yyerrstatus p)
    (yynerrs p) (input p) (yylineno p) cs e.

(** [yyparse] ends with [yyresult]: 0 accept, 1 abort, 2 memory exhausted. *)
Inductive outcome : Set :=
  | Running (p : parser)
  | Done (yyresult : Z) (p : parser).

(** ** Strings *)

Fixpoint prefix_of (s t : string) : bool :=
  match s, t with
  | EmptyString, _ => true
  | String a s', String b t' => Ascii.eqb a b && prefix_of s' t'
  | String _ _, EmptyString => false
  end.

(** [strstr(haystack, needle) != NULL]. *)
Fixpoint strstr (haystack needle : string) : bool :=
  prefix_of needle haystack ||
  match haystack with
  | EmptyString => false
  | String _ rest => strstr rest needle
  end.

(** The formats of [yysyntax_error] with their arguments filled in. *)
Definition syntax_error_text (yyarg : list string) : string :=
  match yyarg with
  | [] => "syntax error"
  | u :: expected =>
      ("syntax error, unexpected " ++ u ++
       match expected with
       | [] => EmptyString
       | e :: es => ", expecting " ++ e ++
                    concat EmptyString (map (fun x => " or " ++ x) es)
       end)%string
  end.

Definition Zrange (lo hi : Z) : list Z :=
  map (fun k => lo + Z.of_nat k) (seq 0 (Z.to_nat (hi - lo))).

(** [yysyntax_error]: the message for an unexpected [yytoken] in [yystate]
    (the state on top of the stack): up to four expected tokens are named,
    none when there are more. *)
Definition yysyntax_error (yystate : Z) (yytoken : Z) : string :=
  if yytoken =? -2 then syntax_error_text []
  else
    let yyn := idx yypact yystate in
    let unexpected := nth (Z.to_nat yytoken) yytname EmptyString in
    if yypact_value_is_default yyn then syntax_error_text [unexpected]
    else
      let yyxbegin := if yyn <? 0 then - yyn else 0 in
      let yychecklim := YYLAST - yyn + 1 in
      let yyxend := if yychecklim <? YYNTOKENS then yychecklim else YYNTOKENS in
      let expected :=
        filter (fun yyx => (idx yycheck (yyx + yyn) =? yyx) && negb (yyx =? YYTERROR))
               (Zrange yyxbegin yyxend) in
      if (4 <? Z.of_nat (List.length expected)) then syntax_error_text [unexpected]
      else syntax_error_text
             (unexpected :: map (fun yyx => nth (Z.to_nat yyx) yytname EmptyString) expected).

(** ** The decisions of the automaton *)

Inductive lalr_action : Set :=
  | Shift (yystate : Z)
  | Reduce (yyn : Z)
  | SyntaxError.

(** [yydefault]. *)
Definition yydefault (yystate : Z) : lalr_action :=
  let yyn := idx yydefact yystate in
  if yyn =? 0 then SyntaxError else Reduce yyn.

(** Whether [yybackup] needs the lookahead in [yystate]. *)
Definition needs_lookahead (yystate : Z) : bool :=
  negb (yypact_value_is_default (idx yypact yystate)).

(** [yybackup] once the lookahead [yytoken] is known. *)
Definition yybackup_action (yystate yytoken : Z) : lalr_action :=
  let yyn := idx yypact yystate + yytoken in
  if (yyn <? 0) || (YYLAST <? yyn) || negb (idx yycheck yyn =? yytoken)
  then yydefault yystate
  else
    let yyn := idx yytable yyn in
    if yyn <=? 0 then Reduce (- yyn) else Shift yyn.

(** The state entered after reducing to the nonterminal [yylhs] with
    [yystate] on top of the stack. *)
Definition yygoto (yystate yylhs : Z) : Z :=
  let i := idx yypgoto (yylhs - YYNTOKENS) + yystate in
  if (0 <=? i) && (i <=? YYLAST) && (idx yycheck i =? yystate)
  then idx yytable i
  else idx yydefgoto (yylhs - YYNTOKENS).

(** The test of the loop of [yyerrlab1]: the state [yystate] shifts the
    error token, and to which state. *)
Definition error_shift (yystate : Z) : option Z :=
  let yyn := idx yypact yystate in
  if yypact_value_is_default yyn then None
  else
    let yyn := yyn + YYTERROR in
    if (0 <=? yyn) && (yyn <=? YYLAST) && (idx yycheck yyn =? YYTERROR)
    then (let yyn := idx yytable yyn in if 0 <? yyn then Some yyn else None)
    else None.

(** ** Semantic actions *)

(** What the action of a rule does: nothing (the default [$$ = $1]), an
    assignment, a [PyNumber_*] call, or [BUILDY]: a Builder method called by
    name, after the calls of [before], whose result [target] stores. *)
Inductive semantic_action : Set :=
  | act_default
  | act_assign (yyval : YYSTYPE)
  | act_number (r : PyResult)
  | act_BUILDY (before : list call) (c : call) (target : PyObject -> YYSTYPE).

Definition yyvsp (s : list frame) (k : Z) : YYSTYPE :=
  match nth_error s (Z.to_nat (- k)) with
  | Some f => f_val f
  | None => VUninit
  end.

Definition yylsp (s : list frame) (k : Z) : YYLTYPE :=
  match nth_error s (Z.to_nat (- k)) with
  | Some f => f_loc f
  | None => mkLoc 0 0 0 0
  end.

(** [YYLLOC_DEFAULT (yyloc, yylsp - yylen, yylen)]. *)
Definition YYLLOC_DEFAULT (s : list frame) (yylen : Z) : YYLTYPE :=
  if yylen =? 0 then
    let l := yylsp s 0 in
    mkLoc (last_line l) (last_column l) (last_line l) (last_column l)
  else
    let l1 := yylsp s (1 - yylen) in
    let ln := yylsp s 0 in
    mkLoc (first_line l1) (first_column l1) (last_line ln) (last_column ln).

Definition star : ascii := "*"%char.

(** [BUILDY (clean, target, method_name, format, ...)] with [yyval.pyobj] as
    its target. *)
Definition BUILDY (method_name : string) (a : list PyArg) : semantic_action :=
  act_BUILDY [] (mkCall method_name a) VObj.

Section Engine.

(** The globals of the parser: the name of the file being parsed, the line
    its first line counts as, and the Builder object. *)
Variable yy_filename : string.
Variable yy_firstline : Z.
Variable builder : Builder.

(** [yyaction yyn s yyloc lineno]: the action of rule [yyn] (the [switch] of
    [yyreduce]) with the stacks [s], the default location [yyloc] and the
    lexer's line [lineno]. *)
Definition yyaction (yyn : Z) (s : list frame) (yyloc : YYLTYPE) (lineno : Z)
  : semantic_action :=
  let v k := pyobj_of (yyvsp s k) in
  let O k := arg_O (v k) in
  let c k := arg_b (character_of (yyvsp s k)) in
  let none := arg_O Py_None in
  let FILE_LINE_ARGS := [arg_s yy_filename; arg_i (first_line yyloc + yy_firstline)] in
  match yyn with
  | 3 => act_assign (VChar star)
  | 4 => act_assign (VChar (character_of (yyvsp s 0)))
  | 5 => act_assign (VChar star)
  | 13 => act_assign (VObj (v 0))
  | 14 => act_number (PyNumber_Add (v (-2)) (v 0))
  | 15 => act_number (PyNumber_Subtract (v (-2)) (v 0))
  | 16 => act_number (PyNumber_Multiply (v (-2)) (v 0))
  | 17 => act_number (PyNumber_TrueDivide (v (-2)) (v 0))
  | 18 => act_number (PyNumber_Negative (v 0))
  | 19 => act_assign (VObj (v 0))
  | 20 => act_assign (VObj (v (-1)))
  | 21 => BUILDY "txn_field_new" [none]
  | 22 => BUILDY "txn_field_STRING" [O (-1); O 0]
  | 23 => BUILDY "txn_field_LINK" [O (-1); O 0]
  | 24 => BUILDY "txn_field_TAG" [O (-1); O 0]
  | 25 => BUILDY "txn_field_PIPE" [O (-1); none]
  | 26 => BUILDY "transaction" (FILE_LINE_ARGS ++ [O (-4); c (-3); O (-2); O 0])
  | 27 => act_assign (VChar zero)
  | 28 => act_assign (VChar star)
  | 30 => BUILDY "posting"
            (FILE_LINE_ARGS ++ [O (-2); O (-1); none; arg_O Py_False; c (-3)])
  | 31 => BUILDY "posting"
            (FILE_LINE_ARGS ++ [O (-4); O (-3); O (-1); arg_O Py_False; c (-5)])
  | 32 => BUILDY "posting"
            (FILE_LINE_ARGS ++ [O (-4); O (-3); O (-1); arg_O Py_True; c (-5)])
  | 33 => BUILDY "posting"
            (FILE_LINE_ARGS ++ [O (-1); none; none; arg_O Py_False; c (-2)])
  | 34 => BUILDY "key_value" [O (-2); O (-1)]
  | 42 => act_assign (VObj (v 0))
  | 43 => act_assign (VObj Py_None)
  | 44 => act_assign (VObj Py_None)
  | 45 => BUILDY "handle_list" [O (-1); O 0]
  | 46 => BUILDY "handle_list" [O (-1); O 0]
  | 47 => act_assign (VObj Py_None)
  | 48 => BUILDY "handle_list" [O (-1); O 0]
  | 49 => act_assign (VObj Py_None)
  | 50 => BUILDY "handle_list" [none; O 0]
  | 51 => BUILDY "handle_list" [O (-2); O 0]
  | 52 => BUILDY "pushtag" [O (-1)]
  | 53 => BUILDY "poptag" [O (-1)]
  | 54 => BUILDY "open"
            (FILE_LINE_ARGS ++ [O (-6); O (-4); O (-3); O (-2); O 0])
  | 55 => act_assign (VObj (v 0))
  | 56 => act_assign (VObj Py_None)
  | 57 => BUILDY "close" (FILE_LINE_ARGS ++ [O (-4); O (-2); O 0])
  | 58 => BUILDY "commodity" (FILE_LINE_ARGS ++ [O (-4); O (-2); O 0])
  | 59 => BUILDY "pad" (FILE_LINE_ARGS ++ [O (-5); O (-3); O (-2); O 0])
  | 60 => BUILDY "balance"
            (FILE_LINE_ARGS ++
             [O (-5); O (-3); arg_O (pyobj1_of (yyvsp s (-2)));
              arg_O (pyobj2_of (yyvsp s (-2))); O 0])
  | 61 => BUILDY "amount" [O (-1); O 0]
  | 62 => act_BUILDY [] (mkCall "amount" [O (-1); O 0])
            (fun o => VPair o Py_None)
  | 63 => act_BUILDY [] (mkCall "amount" [O (-3); O 0])
            (fun o => VPair o (v (-1)))
  | 64 => act_assign (VObj Py_None)
  | 65 => act_assign (VObj (v 0))
  | 66 => BUILDY "compound_amount" [O (-1); none; O 0]
  | 67 => BUILDY "compound_amount" [O (-3); O (-1); O 0]
  | 68 => BUILDY "position" (FILE_LINE_ARGS ++ [O 0; none])
  | 69 => BUILDY "position" (FILE_LINE_ARGS ++ [O (-1); O 0])
  | 70 => BUILDY "lot_spec" [O (-1)]
  | 71 => act_assign (VObj Py_None)
  | 72 => BUILDY "handle_list" [none; O 0]
  | 73 => BUILDY "handle_list" [O (-2); O 0]
  | 74 => act_BUILDY
            [mkCall "build_grammar_error"
               [arg_s yy_filename; arg_i (lineno + yy_firstline);
                arg_s "Usage of slash as cost separate is deprecated (/)"]]
            (mkCall "handle_list" [O (-2); O 0]) VObj
  | 75 => act_assign (VObj (v 0))
  | 76 => act_assign (VObj (v 0))
  | 77 => act_assign (VObj (v 0))
  | 78 => BUILDY "price" (FILE_LINE_ARGS ++ [O (-5); O (-3); O (-2); O 0])
  | 79 => BUILDY "event" (FILE_LINE_ARGS ++ [O (-5); O (-3); O (-2); O 0])
  | 80 => BUILDY "note" (FILE_LINE_ARGS ++ [O (-5); O (-3); O (-2); O 0])
  | 82 => BUILDY "document" (FILE_LINE_ARGS ++ [O (-5); O (-3); O (-2); O 0])
  | 92 => act_assign (VObj (v 0))
  | 93 => BUILDY "option" (FILE_LINE_ARGS ++ [O (-2); O (-1)])
  | 94 => BUILDY "include" (FILE_LINE_ARGS ++ [O (-1)])
  | 95 => BUILDY "plugin" (FILE_LINE_ARGS ++ [O (-1); none])
  | 96 => BUILDY "plugin" (FILE_LINE_ARGS ++ [O (-2); O (-1)])
  | 104 => act_assign (VObj (v (-1)))
  | 105 => BUILDY "handle_list" [O (-1); O 0]
  | 106 => act_assign (VObj (v (-1)))
  | 107 => act_assign (VObj Py_None)
  | 108 => BUILDY "store_result" [O 0]
  | _ => act_default
  end.

(** ** Calls into Python *)

Definition arg_is_NULL (a : PyArg) : bool :=
  match a with arg_O o => is_NULL o | _ => false end.

Definition PyExc_SystemError : PyObject * PyObject :=
  (PyType "SystemError", PyUnicode "NULL object passed to Py_BuildValue").

Definition PyErr_SetString (p : parser) (type message : string) : parser :=
  with_python p (calls p) (Some (PyType type, PyUnicode message)).

(** [PyObject_CallMethod (builder, name, format, ...)].  Building the
    argument tuple fails on a NULL object, and the method is not called;
    otherwise the call is recorded and the Builder answers it. *)
Definition PyObject_CallMethod (p : parser) (c : call) : PyObject * parser :=
  if existsb arg_is_NULL (args c) then
    (NULL, with_python p (calls p)
             (match pyerr p with Some e => Some e | None => Some PyExc_SystemError end))
  else
    match builder (calls p) c with
    | Return o => (o, with_python p (c :: calls p) (pyerr p))
    | Raise e =>
        (NULL, with_python p (c :: calls p)
                 (match e with Some x => Some x | None => pyerr p end))
    end.

(** [build_grammar_error_from_exception] (grammar.c lines 95-127). *)
Definition build_grammar_error_from_exception (p : parser) : parser :=
  match pyerr p with
  | Some (ptype, pvalue) =>
      let p := with_python p (calls p) None in
      let (rv, p) :=
        PyObject_CallMethod p
          (mkCall "build_grammar_error"
             [arg_s yy_filename; arg_i (yylineno p + yy_firstline);
              arg_O pvalue; arg_O ptype]) in
      if is_NULL rv
      then PyErr_SetString p "RuntimeError" "Internal error: While building exception"
      else p
  | None => PyErr_SetString p "RuntimeError" "Internal error: No exception"
  end.

(** [yyerror] (grammar.c lines 132-149). *)
Definition yyerror (p : parser) (message : string) : parser :=
  if strstr message "LEX_ERROR" then p
  else
    let (rv, p) :=
      PyObject_CallMethod p
        (mkCall "build_grammar_error"
           [arg_s yy_filename; arg_i (yylineno p + yy_firstline); arg_s message]) in
    if is_NULL rv
    then PyErr_SetString p "RuntimeError"
           "Internal error: Building exception from yyerror()"
    else p.

(** The object a [PyNumber_*] call leaves in [yyval.pyobj]. *)
Definition value_of (r : PyResult) : PyObject :=
  match r with Return o => o | Raise _ => NULL end.

(** Running an action: the new [yyval] and the parser, or [None] for
    [YYERROR]. *)
Definition run_action (p : parser) (a : semantic_action) (yyval : YYSTYPE)
  : option YYSTYPE * parser :=
  match a with
  | act_default => (Some yyval, p)
  | act_assign v => (Some v, p)
  | act_number r =>
      (Some (VObj (value_of r)),
       match r with
       | Raise (Some x) => with_python p (calls p) (Some x)
       | _ => p
       end)
  | act_BUILDY before c target =>
      let p := fold_left (fun q b => snd (PyObject_CallMethod q b)) before p in
      let (o, p) := PyObject_CallMethod p c in
      if is_NULL o then (None, build_grammar_error_from_exception p)
      else (Some (target o), p)
  end.

(** ** The driver: [yyparse] (grammar.c lines 1341-2528) *)

(** [yylex (&yylval, &yylloc)]: the next token, or end of input. *)
Definition yylex (p : parser) : parser :=
  match input p with
  | [] =>
      mkParser (yystack p) YYEOF (yylval p) (yylloc p) (yyerrstatus p)
        (yynerrs p) [] (yylineno p) (calls p) (pyerr p)
  | t :: rest =>
      mkParser (yystack p) (YYTOK (tok_kind t)) (tok_val t) (tok_loc t)
        (yyerrstatus p) (yynerrs p) rest (tok_lineno t) (calls p) (pyerr p)
  end.

(** [yynewstate] and [yysetstate]: push the new state with its value and
    location; the stacks grow up to [YYMAXDEPTH] entries, beyond which the
    parse ends at [yyexhaustedlab]; entering [YYFINAL] accepts. *)
Definition yynewstate (p : parser) (f : frame) : outcome :=
  let p := with_stack p (f :: yystack p) in
  if YYMAXDEPTH <=? Z.of_nat (List.length (yystack p))
  then Done 2 (yyerror p "memory exhausted")
  else if f_state f =? YYFINAL then Done 0 p
  else Running p.

(** The loop of [yyerrlab1]: pop states until one shifts the error token;
    [range1] is [yyerror_range[1]].  [None] is [YYABORT]: the bottom of the
    stack is reached. *)
Fixpoint yyerrlab1_pop (s : list frame) (range1 : YYLTYPE)
  : option (Z * list frame * YYLTYPE) :=
  match s with
  | [] => None
  | f :: rest =>
      match error_shift (f_state f) with
      | Some yyn => Some (yyn, s, range1)
      | None =>
          match rest with
          | [] => None
          | _ :: _ => yyerrlab1_pop rest (f_loc f)
          end
      end
  end.

Definition yyerrlab1 (p : parser) (range1 : YYLTYPE) : outcome :=
  let p := mkParser (yystack p) (yychar p) (yylval p) (yylloc p) 3
             (yynerrs p) (input p) (yylineno p) (calls p) (pyerr p) in
  match yyerrlab1_pop (yystack p) range1 with
  | None => Done 1 p
  | Some (yyn, s, range1) =>
      let yyloc := mkLoc (first_line range1) (first_column range1)
                     (last_line (yylloc p)) (last_column (yylloc p)) in
      yynewstate (with_stack p s) (mkFrame yyn (yylval p) yyloc)
  end.

(** [yyerrorlab]: the action of a rule of [yylen] symbols ran [YYERROR]. *)
Definition yyerrorlab (p : parser) (yylen : Z) : outcome :=
  let range1 := if yylen =? 0 then mkLoc 0 0 0 0
                else yylsp (yystack p) (1 - yylen) in
  yyerrlab1 (with_stack p (skipn (Z.to_nat yylen) (yystack p))) range1.

(** [yyerrlab]: a syntax error in the state on top of the stack. *)
Definition yyerrlab (p : parser) (yystate : Z) : outcome :=
  let yytoken := yytoken_of (yychar p) in
  let p :=
    if yyerrstatus p =? 0 then
      yyerror
        (mkParser (yystack p) (yychar p) (yylval p) (yylloc p) (yyerrstatus p)
           (yynerrs p + 1) (input p) (yylineno p) (calls p) (pyerr p))
        (yysyntax_error yystate yytoken)
    else p in
  let range1 := yylloc p in
  if yyerrstatus p =? 3 then
    match yychar p with
    | YYEOF => Done 1 p
    | YYEMPTY => yyerrlab1 p range1
    | YYTOK _ =>
        yyerrlab1
          (mkParser (yystack p) YYEMPTY (yylval p) (yylloc p) (yyerrstatus p)
             (yynerrs p) (input p) (yylineno p) (calls p) (pyerr p))
          range1
    end
  else yyerrlab1 p range1.

(** [yyreduce]: reduce by rule [yyn]. *)
Definition yyreduce (p : parser) (yyn : Z) : outcome :=
  let s := yystack p in
  let yylen := idx yyr2 yyn in
  let yyval := if yylen =? 0 then VUninit else yyvsp s (1 - yylen) in
  let yyloc := YYLLOC_DEFAULT s yylen in
  match run_action p (yyaction yyn s yyloc (yylineno p)) yyval with
  | (None, p) => yyerrorlab p yylen
  | (Some yyval, p) =>
      match skipn (Z.to_nat yylen) s with
      | [] => Done 1 p                (* the stacks do not underflow *)
      | (below :: _) as s' =>
          yynewstate (with_stack p s')
            (mkFrame (yygoto (f_state below) (idx yyr1 yyn)) yyval yyloc)
      end
  end.

(** Shifting the lookahead into state [yyn]. *)
Definition yyshift (p : parser) (yyn : Z) : outcome :=
  let p' :=
    mkParser (yystack p) YYEMPTY (yylval p) (yylloc p)
      (if yyerrstatus p =? 0 then 0 else yyerrstatus p - 1)
      (yynerrs p) (input p) (yylineno p) (calls p) (pyerr p) in
  yynewstate p' (mkFrame yyn (yylval p) (yylloc p)).

(** [yybackup] reads a token when it has none. *)
Definition yybackup_read (p : parser) : parser :=
  match yychar p with YYEMPTY => yylex p | _ => p end.

(** One round of the driver, from [yybackup] to the next [yysetstate]. *)
Definition yystep (p : parser) : outcome :=
  match yystack p with
  | [] => Done 1 p
  | top :: _ =>
      let yystate := f_state top in
      if needs_lookahead yystate then
        let p := yybackup_read p in
        match yybackup_action yystate (yytoken_of (yychar p)) with
        | Shift yyn => yyshift p yyn
        | Reduce yyn => yyreduce p yyn
        | SyntaxError => yyerrlab p yystate
        end
      else
        match yydefault yystate with
        | Reduce yyn => yyreduce p yyn
        | _ => yyerrlab p yystate
        end
  end.

(** The parser as [yyparse] starts it on the tokens [toks]. *)
Definition yyinit (toks : list token) (lineno : Z) : parser :=
  mkParser [mkFrame 0 VUninit (mkLoc 1 1 1 1)] YYEMPTY VUninit (mkLoc 1 1 1 1)
    0 0 toks lineno [] None.

Fixpoint yyloop (fuel : nat) (p : parser) : outcome :=
  match fuel with
  | O => Running p
  | S k =>
      match yystep p with
      | Running p' => yyloop k p'
      | Done r p' => Done r p'
      end
  end.

(** [yyparse ()] on the tokens [toks]: its result and the parser it leaves,
    when [fuel] rounds are enough. *)
Definition yyparse (fuel : nat) (toks : list token) (lineno : Z)
  : option (Z * parser) :=
  match yyloop fuel (yyinit toks lineno) with
  | Done r p => Some (r, p)
  | Running _ => None
  end.

(** The Builder's calls in the order they were made. *)
Definition builder_log (p : parser) : list call := rev (calls p).

End Engine.

(** * What the statements below are about *)

(** ** The parser seen from outside *)

(** The tokens the parser has still to consume: the lookahead it holds, then
    what the lexer will return. *)
Definition pending (p : parser) : list token :=
  match yychar p with
  | YYEMPTY => input p
  | YYEOF => []
  | YYTOK k => mkToken k (yylval p) (yylloc p) (yylineno p) :: input p
  end.

(** The internal symbol number of a token kind. *)
Definition symbol_of (k : yytokentype) : Z := YYTRANSLATE (token_code k).

(** The symbol [yybackup] decides on. *)
Definition next_symbol (p : parser) : Z :=
  match pending p with
  | [] => 0
  | t :: _ => symbol_of (tok_kind t)
  end.

(** The decision of [yybackup] in [yystate] when the next symbol is
    [yytoken]. *)
Definition lalr_decision (yystate yytoken : Z) : lalr_action :=
  if needs_lookahead yystate then yybackup_action yystate yytoken
  else yydefault yystate.

Definition depth (s : list frame) : Z := Z.of_nat (List.length s).

Definition parser_of (o : outcome) : parser :=
  match o with Running p => p | Done _ p => p end.

(** The value of an action that only computes one, [None] for [BUILDY]. *)
Definition pure_value (a : semantic_action) (yyval : YYSTYPE) : option YYSTYPE :=
  match a with
  | act_default => Some yyval
  | act_assign v => Some v
  | act_number r => Some (VObj (value_of r))
  | act_BUILDY _ _ _ => None
  end.


(** [p] with the lookahead dropped and [toks] as what the lexer returns. *)
Definition with_input (p : parser) (toks : list token) : parser :=
  mkParser (yystack p) YYEMPTY (yylval p) (yylloc p) (yyerrstatus p)
    (yynerrs p) toks (yylineno p) (calls p) (pyerr p).

(** [p] runs to [p'] in some rounds of the driver. *)
Definition runs (yy_filename : string) (yy_firstline : Z) (builder : Builder)
    (p p' : parser) : Prop :=
  exists n, yyloop yy_filename yy_firstline builder n p = Running p'.

(** [p] runs to [p'], which has pushed one frame of state [yystate] and value
    [v] and has [rest] left to consume; the Builder was not called. *)
Definition pushes (yy_filename : string) (yy_firstline : Z) (builder : Builder)
    (p p' : parser) (yystate : Z) (v : YYSTYPE) (rest : list token) : Prop :=
  runs yy_filename yy_firstline builder p p' /\
  (exists loc, yystack p' = mkFrame yystate v loc :: yystack p) /\
  pending p' = rest /\ calls p' = calls p.

(** ** Builder methods *)







Definition is_method (name : string) (c : call) : bool :=
  String.eqb (method c) name.

(** A Builder whose every method succeeds and returns a node that records
    the call. *)
Definition free_builder : Builder :=
  fun _ c => Return (PyNode (method c) (args c)).



(** ** Number expressions *)





Definition Zrange_states : list Z := Zrange 0 YYNSTATES.






(** ** The automaton as a graph *)

(** The symbols [yybackup] may see: end of input and the tokens. *)
Definition all_symbols : list Z := 0 :: map symbol_of all_tokens.

(** The states [yystate] may shift into, the error token included. *)
Definition shift_targets (yystate : Z) : list Z :=
  match error_shift yystate with Some n => [n] | None => [] end ++
  flat_map (fun sym => match lalr_decision yystate sym with
                       | Shift n => [n]
                       | _ => []
                       end) all_symbols.

(** The rules [yystate] may reduce by. *)
Definition reductions (yystate : Z) : list Z :=
  nodup Z.eq_dec
    (flat_map (fun sym => match lalr_decision yystate sym with
                          | Reduce r => [r]
                          | _ => []
                          end) all_symbols).

Definition edge_in (E : list (Z * Z)) (a b : Z) : bool :=
  existsb (fun e => (fst e =? a) && (snd e =? b)) E.

Definition preds (E : list (Z * Z)) (b : Z) : list Z :=
  map fst (filter (fun e => snd e =? b) E).

(** The states [n] entries below a state [b] on a stack whose neighbours are
    edges of [E]. *)
Fixpoint below_states (E : list (Z * Z)) (n : nat) (b : Z) : list Z :=
  match n with
  | O => [b]
  | S k => flat_map (below_states E k) (preds E b)
  end.

Definition add_edge (E : list (Z * Z)) (e : Z * Z) : list (Z * Z) :=
  if edge_in E (fst e) (snd e) then E else E ++ [e].

(** One round of exploration: the shifts of every state met so far and the
    gotos of its reductions. *)
Definition explore (E : list (Z * Z)) : list (Z * Z) :=
  fold_left
    (fun E s =>
       if s =? YYFINAL then E
       else
         let E := fold_left (fun E t => add_edge E (s, t)) (shift_targets s) E in
         fold_left
           (fun E r =>
              fold_left
                (fun E q => add_edge E (q, yygoto q (idx yyr1 r)))
                (below_states E (Z.to_nat (idx yyr2 r)) s) E)
           (reductions s) E)
    (nodup Z.eq_dec (0 :: map snd E)) E.

Fixpoint iterate (n : nat) (E : list (Z * Z)) : list (Z * Z) :=
  match n with O => E | S k => iterate k (explore E) end.

(** The transitions of the automaton: (state below, state above) for every
    pair of neighbours a stack of the parser can hold. *)
Definition lr_edges : list (Z * Z) := Eval vm_compute in iterate 24 [].

Definition edge (a b : Z) : bool := edge_in lr_edges a b.

Definition mem (x : Z) (l : list Z) : bool := existsb (Z.eqb x) l.

(** A stack of the automaton: state 0 at the bottom, neighbours are edges. *)
Fixpoint valid_stack (s : list frame) : bool :=
  match s with
  | [] => false
  | f :: rest =>
      match rest with
      | [] => f_state f =? 0
      | g :: _ => edge (f_state g) (f_state f) && valid_stack rest
      end
  end.

Definition top_state (p : parser) : Z :=
  match yystack p with f :: _ => f_state f | [] => -1 end.

(** What [yyparse] keeps true of a parser it goes on with. *)
Definition wf (p : parser) : bool :=
  valid_stack (yystack p) && negb (top_state p =? YYFINAL).

(** [lr_edges] is closed: it holds every shift, and for every reduction the
    entries the rule pops are there and the goto is an edge. *)
Definition closed_at (s : Z) : bool :=
  forallb (edge s) (shift_targets s) &&
  forallb
    (fun r =>
       let n := Z.to_nat (idx yyr2 r) in
       forallb (fun k => negb (mem 0 (below_states lr_edges k s))) (seq 0 n) &&
       forallb (fun q => edge q (yygoto q (idx yyr1 r)))
               (below_states lr_edges n s))
    (reductions s).

Definition lr_closed : bool :=
  forallb (fun s => (s =? YYFINAL) || closed_at s) Zrange_states &&
  forallb (fun e => mem (fst e) Zrange_states && mem (snd e) Zrange_states &&
                    negb (snd e =? 0)) lr_edges.





(** ** Sample inputs *)

Definition tok (k : yytokentype) (v : YYSTYPE) (line : Z) : token :=
  mkToken k v (mkLoc line 1 line 1) line.

Definition kw (k : yytokentype) (line : Z) : token := tok k VUninit line.

Definition str (k : yytokentype) (s : string) (line : Z) : token :=
  tok k (VObj (PyUnicode s)) line.

Definition num (c e : Z) (line : Z) : token :=
  tok NUMBER (VObj (PyDecimal (mkDecimal c e))) line.

Definition date (y m d : Z) (line : Z) : token :=
  tok DATE (VObj (PyDate y m d)) line.

Definition flag (c : ascii) (line : Z) : token := tok FLAG (VChar c) line.

(** [<date> open <account> USD] on one line. *)
Definition open_line (day : Z) (account : string) (line : Z) : list token :=
  [ date 2014 1 day line; kw OPEN line; str ACCOUNT account line;
    str CURRENCY "USD" line; kw EOL line ].







(** Scenario A, then an [open] directive on line 4. *)
Definition scenario_A : list token :=
  [ date 2014 3 1 1; flag star 1; str STRING "Cafe Mogador" 1;
    str STRING "Lamb tagine" 1; kw EOL 1;
    kw INDENT 2; str ACCOUNT "Liabilities:CreditCard:CapitalOne" 2;
    kw MINUS 2; num 3745 (-2) 2; str CURRENCY "USD" 2; kw EOL 2;
    kw INDENT 3; str ACCOUNT "Expenses:Restaurant" 3; kw EOL 3 ] ++
  open_line 4 "Assets:Bar" 4.





(** The parser of a transaction once its date is shifted, and the parser of
    Scenario A at the INDENT of its second posting, which has no flag. *)
Definition after_date (toks : list token) : parser :=
  parser_of (yyloop "ledger.beancount" 0 free_builder 3 (yyinit toks 1)).

Definition at_posting : parser :=
  parser_of (yyloop "ledger.beancount" 0 free_builder 31 (yyinit scenario_A 1)).


(** ** Recovery from a malformed line *)

(** Whether the token [k] is a syntax error in [yystate]. *)
Definition unexpected (yystate : Z) (k : yytokentype) : bool :=
  match yybackup_action yystate (symbol_of k) with
  | SyntaxError => true
  | _ => false
  end.





(** A transaction whose flag slot holds the token [t]. *)
Definition txn_with (t : token) : list token :=
  [ date 2014 3 1 1; t; str STRING "Lamb tagine" 1; kw EOL 1;
    kw INDENT 2; str ACCOUNT "Expenses:Restaurant" 2; kw EOL 2 ].


(** Parsing [toks] as the file ledger.beancount with the Builder [b]. *)
Definition parse_with (b : Builder) (toks : list token) : option (Z * parser) :=
  yyparse "ledger.beancount" 0 b 4000 toks 1.

Definition parse_free (toks : list token) : option (Z * parser) :=
  parse_with free_builder toks.

Definition calls_of (name : string) (r : option (Z * parser)) : list call :=
  match r with
  | Some (_, p) => filter (is_method name) (builder_log p)
  | None => []
  end.



(** The names both enumerations give the same value. *)
Definition agreeing_names : list string :=
  map fst
    (filter (fun e => match enum_value GrammarH.yytokentype (fst e) with
                      | Some v => v =? snd e
                      | None => false
                      end) yytokentype_c).

(** * Lemmas *)

(** ** One round of the driver *)

Section Steps.
Variable yy_filename : string.
Variable yy_firstline : Z.
Variable builder : Builder.

Let step := yystep yy_filename yy_firstline builder.
Let loop := yyloop yy_filename yy_firstline builder.

Lemma yybackup_read_spec :
  forall p, let q := yybackup_read p in
    yystack q = yystack p /\ calls q = calls p /\ pending q = pending p /\
    yytoken_of (yychar q) = next_symbol p /\
    match pending p with
    | t :: rest =>
        yychar q = YYTOK (tok_kind t) /\ yylval q = tok_val t /\
        yylloc q = tok_loc t /\ input q = rest
    | [] => yychar q = YYEOF
    end.
Proof.
  intros p q. subst q. unfold yybackup_read, next_symbol, pending.
  destruct (yychar p) eqn:Hc.
  - unfold yylex. destruct (input p) as [| t rest] eqn:Hi; cbn.
    + repeat split; reflexivity.
    + destruct t; cbn. repeat split; reflexivity.
  - rewrite Hc. repeat split; reflexivity.
  - rewrite Hc. cbn. repeat split; reflexivity.
Qed.

Lemma yynewstate_running :
  forall p f,
    depth (f :: yystack p) < YYMAXDEPTH -> f_state f <> YYFINAL ->
    yynewstate yy_filename yy_firstline builder p f
    = Running (with_stack p (f :: yystack p)).
Proof.
  intros p f Hd Hf. unfold yynewstate. cbn [yystack with_stack].
  unfold depth in Hd.
  destruct (YYMAXDEPTH <=? _) eqn:E; [ apply Z.leb_le in E; lia | ].
  destruct (f_state f =? YYFINAL) eqn:F; [ apply Z.eqb_eq in F; contradiction | ].
  reflexivity.
Qed.

(** A shift: the state on top decides to shift the next token. *)
Lemma yystep_shift :
  forall p f s t rest yyn,
    yystack p = f :: s -> pending p = t :: rest ->
    needs_lookahead (f_state f) = true ->
    yybackup_action (f_state f) (symbol_of (tok_kind t)) = Shift yyn ->
    yyn <> YYFINAL -> depth (f :: s) + 1 < YYMAXDEPTH ->
    exists p',
      step p = Running p' /\
      yystack p' = mkFrame yyn (tok_val t) (tok_loc t) :: f :: s /\
      pending p' = rest /\ calls p' = calls p.
Proof.
  intros p f s t rest yyn Hs Hp Hn Ha Hf Hd.
  destruct (yybackup_read_spec p) as (Q1 & Q2 & Q3 & Q4 & Q5).
  rewrite Hp in Q5. destruct Q5 as (Q5 & Q6 & Q7 & Q8).
  unfold step, yystep. rewrite Hs, Hn. cbv zeta.
  rewrite Q4. unfold next_symbol. rewrite Hp, Ha.
  unfold yyshift. rewrite yynewstate_running.
  - eexists; split; [ reflexivity | ].
    cbn [with_stack yystack calls pending yychar input].
    rewrite Q1, Q6, Q7, Q8, Q2, Hs. repeat split; reflexivity.
  - cbn [yystack]. rewrite Q1, Hs. unfold depth in *. cbn [List.length] in *. lia.
  - exact Hf.
Qed.

Lemma run_action_pure :
  forall p a yyval v,
    pure_value a yyval = Some v ->
    exists q, run_action yy_filename yy_firstline builder p a yyval = (Some v, q) /\
      yystack q = yystack p /\ calls q = calls p /\ pending q = pending p.
Proof.
  intros p a yyval v H. destruct a as [| w | r |]; cbn in H; inversion H; subst; cbn.
  - eexists; repeat split; reflexivity.
  - eexists; repeat split; reflexivity.
  - destruct r as [o | [e |]]; eexists; repeat split; reflexivity.
Qed.

Lemma yystep_reduce :
  forall p f s yyn v below s',
    yystack p = f :: s ->
    lalr_decision (f_state f) (next_symbol p) = Reduce yyn ->
    (forall lineno,
       pure_value
         (yyaction yy_filename yy_firstline yyn (f :: s)
            (YYLLOC_DEFAULT (f :: s) (idx yyr2 yyn)) lineno)
         (if idx yyr2 yyn =? 0 then VUninit else yyvsp (f :: s) (1 - idx yyr2 yyn))
       = Some v) ->
    skipn (Z.to_nat (idx yyr2 yyn)) (f :: s) = below :: s' ->
    yygoto (f_state below) (idx yyr1 yyn) <> YYFINAL ->
    depth (below :: s') + 1 < YYMAXDEPTH ->
    exists p',
      step p = Running p' /\
      yystack p' =
        mkFrame (yygoto (f_state below) (idx yyr1 yyn)) v
          (YYLLOC_DEFAULT (f :: s) (idx yyr2 yyn)) :: below :: s' /\
      pending p' = pending p /\ calls p' = calls p.
Proof.
  intros p f s yyn v below s' Hs Hdec Hact Hskip Hfin Hd.
  destruct (yybackup_read_spec p) as (Q1 & Q2 & Q3 & Q4 & _).
  assert (Hred : exists q, (q = p \/ q = yybackup_read p) /\
                   step p = yyreduce yy_filename yy_firstline builder q yyn).
  { unfold step, yystep, lalr_decision in *. rewrite Hs.
    destruct (needs_lookahead (f_state f)).
    - cbv zeta. rewrite Q4, Hdec. eexists; split; [ right | ]; reflexivity.
    - rewrite Hdec. eexists; split; [ left | ]; reflexivity. }
  destruct Hred as (q & Hq & ->).
  assert (Hqs : yystack q = f :: s /\ calls q = calls p /\ pending q = pending p).
  { destruct Hq as [-> | ->]; [ auto | ]. rewrite Q1, Q2, Q3. auto. }
  destruct Hqs as (Hq1 & Hq2 & Hq3).
  unfold yyreduce. rewrite Hq1.
  destruct (run_action_pure q _ _ _ (Hact (yylineno q))) as (q' & -> & R1 & R2 & R3).
  rewrite Hskip. rewrite yynewstate_running.
  - eexists; split; [ reflexivity | ].
    cbn [with_stack yystack calls pending yychar input].
    repeat split; try congruence.
    unfold pending in *. destruct q'; cbn in *. congruence.
  - cbn [with_stack yystack]. unfold depth in *. cbn [List.length] in *. lia.
  - exact Hfin.
Qed.

Lemma yyloop_trans :
  forall n m p q r,
    loop n p = Running q -> loop m q = r -> loop (n + m) p = r.
Proof.
  unfold loop.
  induction n as [| n IH]; intros m p q r H1 H2.
  - cbn in H1. inversion H1; subst. reflexivity.
  - cbn [yyloop Nat.add] in *.
    destruct (yystep yy_filename yy_firstline builder p) as [p1 | x p1]; [ | discriminate ].
    eapply IH; eassumption.
Qed.

Lemma yyloop_one :
  forall p q, step p = Running q -> loop 1 p = Running q.
Proof. intros p q H. unfold loop, step in *. cbn. rewrite H. reflexivity. Qed.

End Steps.

(** ** The Builder methods the parser calls *)


Section Calls.
Variable yy_filename : string.
Variable yy_firstline : Z.
Variable builder : Builder.














End Calls.

(** ** Number expressions *)


(** *** Facts read off the tables *)





(** After [number_expr PLUS number_expr] (state 128) and [number_expr MINUS
    number_expr] (state 129) every symbol but ASTERISK and SLASH reduces. *)
Lemma next_symbol_pending :
  forall p rest, pending p = rest ->
    next_symbol p = match rest with [] => 0 | t :: _ => symbol_of (tok_kind t) end.
Proof. intros p rest H. unfold next_symbol. rewrite H. reflexivity. Qed.


Section NumberExpr.
Variable yy_filename : string.
Variable yy_firstline : Z.
Variable builder : Builder.

Let step := yystep yy_filename yy_firstline builder.
Let loop := yyloop yy_filename yy_firstline builder.

Let runs := runs yy_filename yy_firstline builder.
Let pushes := pushes yy_filename yy_firstline builder.

Lemma runs_step : forall p q, step p = Running q -> runs p q.
Proof. intros p q H. exists 1%nat. apply yyloop_one. exact H. Qed.

Lemma runs_trans : forall p q r, runs p q -> runs q r -> runs p r.
Proof.
  intros p q r [n Hn] [m Hm]. exists (n + m)%nat.
  eapply yyloop_trans; eassumption.
Qed.


Lemma length_app_Z :
  forall (a b : list token),
    Z.of_nat (List.length (a ++ b)) = Z.of_nat (List.length a) + Z.of_nat (List.length b).
Proof. intros. rewrite length_app. lia. Qed.

End NumberExpr.

(** ** The stacks of the automaton *)

Lemma lr_closed_true : lr_closed = true.
Proof. vm_compute. reflexivity. Qed.


Lemma mem_In : forall x l, mem x l = true <-> In x l.
Proof.
  intros x l. unfold mem. rewrite existsb_exists. split.
  - intros (y & Hy & E). apply Z.eqb_eq in E. subst. exact Hy.
  - intro H. exists x. split; [ exact H | apply Z.eqb_refl ].
Qed.

Lemma edge_In : forall a b, edge a b = true <-> In (a, b) lr_edges.
Proof.
  intros a b. unfold edge, edge_in. rewrite existsb_exists. split.
  - intros ([x y] & H & E). cbn in E. apply andb_true_iff in E.
    destruct E as [E1 E2]. apply Z.eqb_eq in E1, E2. subst. exact H.
  - intro H. exists (a, b). split; [ exact H | ]. cbn. now rewrite !Z.eqb_refl.
Qed.

Lemma edge_states :
  forall a b, edge a b = true ->
    In a Zrange_states /\ In b Zrange_states /\ b <> 0.
Proof.
  intros a b H. apply edge_In in H.
  pose proof lr_closed_true as C. unfold lr_closed in C.
  apply andb_true_iff in C. destruct C as [_ C].
  rewrite forallb_forall in C. specialize (C _ H). cbn [fst snd] in C.
  apply andb_true_iff in C. destruct C as [C C3].
  apply andb_true_iff in C. destruct C as [C1 C2].
  apply mem_In in C1, C2. apply negb_true_iff in C3. apply Z.eqb_neq in C3.
  auto.
Qed.

Lemma preds_edge : forall a b, edge a b = true -> In a (preds lr_edges b).
Proof.
  intros a b H. apply edge_In in H. unfold preds.
  apply in_map_iff. exists (a, b). split; [ reflexivity | ].
  apply filter_In. split; [ exact H | apply Z.eqb_refl ].
Qed.

Lemma valid_tail :
  forall f g s, valid_stack (f :: g :: s) = true ->
    edge (f_state g) (f_state f) = true /\ valid_stack (g :: s) = true.
Proof.
  intros f g s H. cbn [valid_stack] in H. apply andb_true_iff in H. exact H.
Qed.

Lemma valid_push :
  forall g s n v l,
    valid_stack (g :: s) = true -> edge (f_state g) n = true ->
    valid_stack (mkFrame n v l :: g :: s) = true.
Proof.
  intros g s n v l H E. change (edge (f_state g) n && valid_stack (g :: s) = true).
  now rewrite E, H.
Qed.

Lemma valid_top :
  forall f s, valid_stack (f :: s) = true -> In (f_state f) Zrange_states.
Proof.
  intros f [| g s] H.
  - cbn in H. apply Z.eqb_eq in H. rewrite H. vm_compute. tauto.
  - apply valid_tail in H. destruct H as [E _].
    apply edge_states in E. tauto.
Qed.

Lemma valid_below :
  forall k f s g,
    valid_stack (f :: s) = true -> nth_error (f :: s) k = Some g ->
    In (f_state g) (below_states lr_edges k (f_state f)).
Proof.
  induction k as [| k IH]; intros f s g V N.
  - cbn in N. inversion N; subst. cbn. tauto.
  - destruct s as [| g1 s1]; [ destruct k; discriminate | ].
    cbn [nth_error] in N. apply valid_tail in V. destruct V as [E V].
    cbn [below_states]. apply in_flat_map. exists (f_state g1). split.
    + apply preds_edge. exact E.
    + apply (IH g1 s1 g V N).
Qed.

Lemma valid_bottom :
  forall s, valid_stack s = true ->
    exists f0, nth_error s (List.length s - 1) = Some f0 /\ f_state f0 = 0.
Proof.
  induction s as [| f s IH]; intro V; [ discriminate | ].
  destruct s as [| g s].
  - exists f. cbn in *. apply Z.eqb_eq in V. auto.
  - apply valid_tail in V. destruct V as [_ V].
    destruct (IH V) as (f0 & N & Z0). exists f0. split; [ | exact Z0 ].
    cbn [List.length] in *.
    replace (S (S (List.length s)) - 1)%nat with (S (S (List.length s) - 1))%nat by lia.
    exact N.
Qed.

Lemma valid_skipn :
  forall k s g s', valid_stack s = true -> skipn k s = g :: s' ->
    valid_stack (g :: s') = true.
Proof.
  induction k as [| k IH]; intros s g s' V H.
  - cbn in H. subst. exact V.
  - destruct s as [| f s]; [ discriminate | ]. cbn [skipn] in H.
    destruct s as [| g1 s1]; [ destruct k; discriminate | ].
    apply valid_tail in V. destruct V as [_ V]. exact (IH _ _ _ V H).
Qed.

Lemma nth_error_skipn_cons :
  forall (k : nat) (s : list frame) g,
    nth_error s k = Some g -> exists s', skipn k s = g :: s'.
Proof.
  induction k as [| k IH]; intros [| f s] g H; try discriminate.
  - cbn in H. inversion H; subst. exists s. reflexivity.
  - cbn in *. apply IH. exact H.
Qed.

Lemma closed_at_state :
  forall s, In s Zrange_states -> s <> YYFINAL -> closed_at s = true.
Proof.
  intros s H N. pose proof lr_closed_true as C. unfold lr_closed in C.
  apply andb_true_iff in C. destruct C as [C _].
  rewrite forallb_forall in C. specialize (C _ H).
  apply orb_true_iff in C. destruct C as [C | C]; [ | exact C ].
  apply Z.eqb_eq in C. contradiction.
Qed.

(** A reduction finds the entries it pops, and its goto is an edge. *)
Lemma reduce_pops :
  forall f s r,
    valid_stack (f :: s) = true -> f_state f <> YYFINAL ->
    In r (reductions (f_state f)) ->
    exists below s',
      skipn (Z.to_nat (idx yyr2 r)) (f :: s) = below :: s' /\
      edge (f_state below) (yygoto (f_state below) (idx yyr1 r)) = true /\
      In (f_state below) (below_states lr_edges (Z.to_nat (idx yyr2 r)) (f_state f)).
Proof.
  intros f s r V N R.
  pose proof (closed_at_state _ (valid_top _ _ V) N) as C.
  unfold closed_at in C. apply andb_true_iff in C. destruct C as [_ C].
  rewrite forallb_forall in C. specialize (C _ R). cbv zeta in C.
  apply andb_true_iff in C. destruct C as [C1 C2].
  rewrite forallb_forall in C1, C2.
  set (n := Z.to_nat (idx yyr2 r)) in *.
  assert (L : (n < List.length (f :: s))%nat).
  { destruct (Nat.lt_ge_cases n (List.length (f :: s))) as [L | L]; [ exact L | exfalso ].
    destruct (valid_bottom _ V) as (f0 & B & Z0).
    assert (K : In (List.length (f :: s) - 1)%nat (seq 0 n)).
    { apply in_seq. cbn [List.length] in *. lia. }
    specialize (C1 _ K). apply negb_true_iff in C1.
    pose proof (valid_below _ _ _ _ V B) as I0. rewrite Z0 in I0.
    apply mem_In in I0. congruence. }
  destruct (nth_error (f :: s) n) as [below |] eqn:E;
    [ | apply nth_error_None in E; lia ].
  destruct (nth_error_skipn_cons _ _ _ E) as (s' & K).
  exists below, s'. split; [ exact K | ].
  pose proof (valid_below _ _ _ _ V E) as I0. split; [ | exact I0 ].
  apply (C2 _ I0).
Qed.

Lemma all_tokens_complete : forall k, In k all_tokens.
Proof.
  intro k. unfold all_tokens.
  destruct k; repeat (first [ left; reflexivity | right ]).
Qed.

Lemma next_symbol_known : forall p, In (next_symbol p) all_symbols.
Proof.
  intro p. unfold next_symbol, all_symbols.
  destruct (pending p) as [| t rest]; [ left; reflexivity | right ].
  apply in_map. apply all_tokens_complete.
Qed.

Lemma decision_reduction :
  forall s sym r, In sym all_symbols -> lalr_decision s sym = Reduce r ->
    In r (reductions s).
Proof.
  intros s sym r H D. unfold reductions. apply nodup_In.
  apply in_flat_map. exists sym. split; [ exact H | ]. rewrite D. left. reflexivity.
Qed.

Lemma decision_shift :
  forall s sym n, In sym all_symbols -> lalr_decision s sym = Shift n ->
    edge s n = true \/ s = YYFINAL \/ ~ In s Zrange_states.
Proof.
  intros s sym n H D.
  destruct (in_dec Z.eq_dec s Zrange_states) as [I | I]; [ | tauto ].
  destruct (Z.eq_dec s YYFINAL) as [F | F]; [ tauto | left ].
  pose proof (closed_at_state _ I F) as C. unfold closed_at in C.
  apply andb_true_iff in C. destruct C as [C _].
  rewrite forallb_forall in C. apply C. unfold shift_targets.
  apply in_or_app. right. apply in_flat_map. exists sym.
  split; [ exact H | ]. rewrite D. left. reflexivity.
Qed.

Lemma error_shift_edge :
  forall s n, In s Zrange_states -> s <> YYFINAL -> error_shift s = Some n ->
    edge s n = true.
Proof.
  intros s n I F E. pose proof (closed_at_state _ I F) as C. unfold closed_at in C.
  apply andb_true_iff in C. destruct C as [C _].
  rewrite forallb_forall in C. apply C. unfold shift_targets.
  apply in_or_app. left. rewrite E. left. reflexivity.
Qed.

Section WellFormed.
Variable yy_filename : string.
Variable yy_firstline : Z.
Variable builder : Builder.

Lemma yynewstate_cases :
  forall p f p',
    yynewstate yy_filename yy_firstline builder p f = Running p' ->
    p' = with_stack p (f :: yystack p) /\ f_state f <> YYFINAL.
Proof.
  intros p f p' H. unfold yynewstate in H.
  destruct (YYMAXDEPTH <=? _); [ discriminate | ].
  destruct (f_state f =? YYFINAL) eqn:F; [ discriminate | ].
  apply Z.eqb_neq in F. inversion H. auto.
Qed.

Lemma wf_push :
  forall p g s n v l,
    yystack p = g :: s -> valid_stack (g :: s) = true ->
    edge (f_state g) n = true -> n <> YYFINAL ->
    wf (with_stack p (mkFrame n v l :: yystack p)) = true.
Proof.
  intros p g s n v l Hs V E F. unfold wf, top_state.
  cbn [with_stack yystack f_state]. rewrite Hs.
  rewrite (valid_push _ _ _ v l V E). apply Z.eqb_neq in F. now rewrite F.
Qed.

Lemma wf_valid :
  forall p, wf p = true ->
    exists f s, yystack p = f :: s /\ valid_stack (f :: s) = true /\
                f_state f <> YYFINAL.
Proof.
  intros p H. unfold wf, top_state in H. apply andb_true_iff in H.
  destruct H as [V F]. destruct (yystack p) as [| f s]; [ discriminate | ].
  exists f, s. apply negb_true_iff in F. apply Z.eqb_neq in F. auto.
Qed.

Lemma yyerrlab1_pop_suffix :
  forall s r n s' r',
    yyerrlab1_pop s r = Some (n, s', r') ->
    exists k g t, skipn k s = s' /\ s' = g :: t /\ error_shift (f_state g) = Some n.
Proof.
  induction s as [| f s IH]; intros r n s' r' H; [ discriminate | ].
  cbn [yyerrlab1_pop] in H.
  destruct (error_shift (f_state f)) as [m |] eqn:E.
  - inversion H; subst. exists 0%nat, f, s. auto.
  - destruct s as [| g s1]; [ discriminate | ].
    destruct (IH _ _ _ _ H) as (k & g' & t & K1 & K2 & K3).
    exists (S k), g', t. auto.
Qed.

Lemma error_shift_not_final : error_shift YYFINAL = None.
Proof. vm_compute. reflexivity. Qed.

Lemma yyerrlab1_wf :
  forall p r p',
    valid_stack (yystack p) = true ->
    yyerrlab1 yy_filename yy_firstline builder p r = Running p' ->
    wf p' = true.
Proof.
  intros p r p' V H. unfold yyerrlab1 in H. cbn [yystack yylval yylloc] in H.
  destruct (yyerrlab1_pop (yystack p) r) as [[[n s'] r'] |] eqn:E; [ | discriminate ].
  destruct (yyerrlab1_pop_suffix _ _ _ _ _ E) as (k & g & t & K1 & -> & K3).
  pose proof (valid_skipn _ _ _ _ V K1) as V'.
  apply yynewstate_cases in H. destruct H as [-> F].
  cbn [f_state] in F.
  assert (G : f_state g <> YYFINAL).
  { intro G. rewrite G, error_shift_not_final in K3. discriminate. }
  apply (wf_push _ g t); cbn [with_stack yystack]; auto.
  apply error_shift_edge; auto. apply (valid_top _ _ V').
Qed.

Lemma PyObject_CallMethod_frame :
  forall p c,
    let q := snd (PyObject_CallMethod builder p c) in
    yystack q = yystack p /\ yychar q = yychar p /\ yylval q = yylval p /\
    yylloc q = yylloc p /\ yyerrstatus q = yyerrstatus p /\
    yynerrs q = yynerrs p /\ input q = input p /\ yylineno q = yylineno p.
Proof.
  intros p c. unfold PyObject_CallMethod.
  destruct (existsb arg_is_NULL _); [ | destruct (builder _ _) ];
    cbn; repeat split; reflexivity.
Qed.

Lemma yyerror_stack :
  forall p m, yystack (yyerror yy_filename yy_firstline builder p m) = yystack p.
Proof.
  intros p m. unfold yyerror. destruct (strstr m "LEX_ERROR"); [ reflexivity | ].
  match goal with |- context [PyObject_CallMethod builder p ?c] =>
    pose proof (PyObject_CallMethod_frame p c) as H;
    destruct (PyObject_CallMethod builder p c) as [rv q] end.
  cbv zeta in H. cbn [snd] in H. destruct H as (H & _).
  destruct (is_NULL rv); cbn; exact H.
Qed.

Lemma yyerrlab_wf :
  forall p s p',
    valid_stack (yystack p) = true ->
    yyerrlab yy_filename yy_firstline builder p s = Running p' ->
    wf p' = true.
Proof.
  intros p s p' V H. unfold yyerrlab in H.
  set (q := if yyerrstatus p =? 0 then _ else p) in H.
  assert (Vq : valid_stack (yystack q) = true).
  { subst q. destruct (yyerrstatus p =? 0); [ | exact V ].
    rewrite yyerror_stack. exact V. }
  clearbody q.
  destruct (yyerrstatus q =? 3).
  - destruct (yychar q); [ | discriminate | ];
      (eapply yyerrlab1_wf; [ | exact H ]; exact Vq).
  - eapply yyerrlab1_wf; [ | exact H ]; exact Vq.
Qed.

Lemma build_grammar_error_from_exception_frame :
  forall p,
    let q := build_grammar_error_from_exception yy_filename yy_firstline builder p in
    yystack q = yystack p /\ yychar q = yychar p /\ yylval q = yylval p /\
    yylloc q = yylloc p /\ yyerrstatus q = yyerrstatus p /\
    yynerrs q = yynerrs p /\ input q = input p /\ yylineno q = yylineno p.
Proof.
  intro p. unfold build_grammar_error_from_exception.
  destruct (pyerr p) as [[ptype pvalue] |]; [ | cbn; repeat split; reflexivity ].
  match goal with |- context [PyObject_CallMethod builder ?p0 ?c] =>
    pose proof (PyObject_CallMethod_frame p0 c) as H;
    destruct (PyObject_CallMethod builder p0 c) as [rv q1] end.
  cbn [snd] in H. cbn [with_python yystack yychar yylval yylloc yyerrstatus
                        yynerrs input yylineno] in H.
  destruct (is_NULL rv); cbn; exact H.
Qed.

Lemma run_action_frame :
  forall p a v,
    let q := snd (run_action yy_filename yy_firstline builder p a v) in
    yystack q = yystack p /\ yychar q = yychar p /\ yylval q = yylval p /\
    yylloc q = yylloc p /\ yyerrstatus q = yyerrstatus p /\
    yynerrs q = yynerrs p /\ input q = input p /\ yylineno q = yylineno p.
Proof.
  intros p a v. destruct a as [| w | [o | [e |]] | before c target];
    try (cbn; repeat split; reflexivity).
  cbn [run_action].
  assert (F : let q0 := fold_left (fun q b => snd (PyObject_CallMethod builder q b)) before p in
              yystack q0 = yystack p /\ yychar q0 = yychar p /\ yylval q0 = yylval p /\
              yylloc q0 = yylloc p /\ yyerrstatus q0 = yyerrstatus p /\
              yynerrs q0 = yynerrs p /\ input q0 = input p /\ yylineno q0 = yylineno p).
  { revert p. induction before as [| b bs IH]; intro p; cbn [fold_left].
    - repeat split; reflexivity.
    - specialize (IH (snd (PyObject_CallMethod builder p b))). cbv zeta in IH.
      pose proof (PyObject_CallMethod_frame p b) as H. cbv zeta in H.
      destruct IH as (I1 & I2 & I3 & I4 & I5 & I6 & I7 & I8).
      destruct H as (H1 & H2 & H3 & H4 & H5 & H6 & H7 & H8).
      repeat split; congruence. }
  cbv zeta in F. set (q0 := fold_left _ before p) in *. clearbody q0.
  pose proof (PyObject_CallMethod_frame q0 c) as H. cbv zeta in H.
  destruct (PyObject_CallMethod builder q0 c) as [o q1]. cbn [snd] in H.
  destruct F as (I1 & I2 & I3 & I4 & I5 & I6 & I7 & I8).
  destruct H as (H1 & H2 & H3 & H4 & H5 & H6 & H7 & H8).
  destruct (is_NULL o); cbn [snd].
  - pose proof (build_grammar_error_from_exception_frame q1) as G. cbv zeta in G.
    destruct G as (G1 & G2 & G3 & G4 & G5 & G6 & G7 & G8).
    repeat split; congruence.
  - repeat split; congruence.
Qed.

Lemma yybackup_read_stack : forall p, yystack (yybackup_read p) = yystack p.
Proof.
  intro p. unfold yybackup_read. destruct (yychar p); try reflexivity.
  unfold yylex. destruct (input p); reflexivity.
Qed.

Lemma yyreduce_wf :
  forall p f s r p',
    yystack p = f :: s -> valid_stack (f :: s) = true -> f_state f <> YYFINAL ->
    In r (reductions (f_state f)) ->
    yyreduce yy_filename yy_firstline builder p r = Running p' ->
    wf p' = true.
Proof.
  intros p f s r p' Hs V F R H. unfold yyreduce in H. rewrite Hs in H.
  destruct (reduce_pops _ _ _ V F R) as (below & s' & K & E & _).
  match type of H with context [run_action _ _ _ p ?a ?v] =>
    pose proof (run_action_frame p a v) as Fr;
    destruct (run_action yy_filename yy_firstline builder p a v) as [[w |] q] end;
    cbv zeta in Fr; cbn [snd] in Fr; destruct Fr as (Fs & _).
  - rewrite K in H. apply yynewstate_cases in H. destruct H as [-> G].
    cbn [f_state] in G.
    apply (wf_push _ below s'); cbn [with_stack yystack]; auto.
    apply (valid_skipn _ _ _ _ V K).
  - unfold yyerrorlab in H. rewrite Fs, Hs, K in H.
    eapply yyerrlab1_wf; [ | exact H ].
    cbn [with_stack yystack]. apply (valid_skipn _ _ _ _ V K).
Qed.

(** [yyparse] keeps its stack a path of the automaton. *)
Lemma yystep_wf :
  forall p p', wf p = true ->
    yystep yy_filename yy_firstline builder p = Running p' -> wf p' = true.
Proof.
  intros p p' W H. destruct (wf_valid _ W) as (f & s & Hs & V & F).
  pose proof (next_symbol_known p) as Sym.
  destruct (yybackup_read_spec p) as (Q1 & _ & _ & Q4 & _).
  unfold yystep in H. rewrite Hs in H.
  destruct (needs_lookahead (f_state f)) eqn:N.
  - cbv zeta in H. rewrite Q4 in H.
    destruct (yybackup_action (f_state f) (next_symbol p)) as [n | r |] eqn:A.
    + unfold yyshift in H. apply yynewstate_cases in H. destruct H as [-> G].
      cbn [f_state] in G.
      assert (E : edge (f_state f) n = true).
      { destruct (decision_shift (f_state f) (next_symbol p) n Sym) as [E | [E | E]];
          [ unfold lalr_decision; rewrite N; exact A | exact E | contradiction
          | exfalso; apply E; apply (valid_top _ _ V) ]. }
      apply (wf_push _ f s); auto. cbn [yystack]. rewrite Q1. exact Hs.
    + eapply (yyreduce_wf (yybackup_read p) f s r); eauto.
      * rewrite Q1. exact Hs.
      * apply (decision_reduction _ (next_symbol p)); [ exact Sym | ].
        unfold lalr_decision. rewrite N. exact A.
    + eapply yyerrlab_wf; [ | exact H ]. rewrite Q1, Hs. exact V.
  - destruct (yydefault (f_state f)) as [n | r |] eqn:A.
    + eapply yyerrlab_wf; [ | exact H ]. rewrite Hs. exact V.
    + eapply (yyreduce_wf p f s r); eauto.
      apply (decision_reduction _ (next_symbol p)); [ exact Sym | ].
      unfold lalr_decision. rewrite N. exact A.
    + eapply yyerrlab_wf; [ | exact H ]. rewrite Hs. exact V.
Qed.

Lemma yyloop_wf :
  forall n p p', wf p = true ->
    yyloop yy_filename yy_firstline builder n p = Running p' -> wf p' = true.
Proof.
  induction n as [| n IH]; intros p p' W H; cbn [yyloop] in H.
  - inversion H; subst. exact W.
  - destruct (yystep yy_filename yy_firstline builder p) as [q | x q] eqn:S;
      [ | discriminate ].
    apply (IH q p'); [ | exact H ]. apply (yystep_wf p q W S).
Qed.

Lemma yyinit_wf : forall toks lineno, wf (yyinit toks lineno) = true.
Proof. intros. reflexivity. Qed.

End WellFormed.

(** ** Error recovery *)






Section Recovery.
Variable yy_filename : string.
Variable yy_firstline : Z.
Variable builder : Builder.





End Recovery.

(** ** Parentheses and double negation in the spec's reading *)






Lemma with_input_spec :
  forall p toks,
    yystack (with_input p toks) = yystack p /\
    pending (with_input p toks) = toks /\
    calls (with_input p toks) = calls p.
Proof. intros. repeat split; reflexivity. Qed.

(** ** Recovery from a malformed line, phase by phase *)

Section MalformedLine.
Variable yy_filename : string.
Variable yy_firstline : Z.

Let loop := yyloop yy_filename yy_firstline free_builder.









End MalformedLine.

(** * The claims *)

(** * The claims *)




















(** C9.  The two enumerations disagree: after COMMA the header gives SLASH
    the value 272 and grammar.c gives it 275; the header has
    no TILDE, which grammar.c numbers 272; the header's first token is ERROR where
    grammar.c has LEX_ERROR; only the thirteen names INDENT to COMMA have the
    same value in both. *)
Theorem yytokentype_header_differs :
  enum_value GrammarH.yytokentype "SLASH" = Some 272 /\
  enum_value yytokentype_c "SLASH" = Some 275 /\
  enum_value GrammarH.yytokentype "TILDE" = None /\
  enum_value yytokentype_c "TILDE" = Some 272 /\
  enum_value GrammarH.yytokentype "ERROR" = Some 258 /\
  enum_value yytokentype_c "ERROR" = None /\
  enum_value yytokentype_c "LEX_ERROR" = Some 258 /\
  agreeing_names =
    [ "INDENT"; "EOL"; "COMMENT"; "SKIPPED"; "PIPE"; "ATAT"; "AT";
      "LCURLCURL"; "RCURLCURL"; "LCURL"; "RCURL"; "EQUAL"; "COMMA" ]%string /\
  List.length GrammarH.yytokentype = 38%nat /\
  List.length yytokentype_c = 48%nat.
Proof. vm_compute. repeat split; reflexivity. Qed.

(** C10.  In state 14, entered on a date, the token TXN and the token
    ASTERISK are both reduced to the flag character [*] of [txn] (rules 3
    and 5, into state 53).  In state 140, entered on the INDENT of a posting
    line, an ACCOUNT that comes without a flag makes the parser reduce
    [optflag] from nothing with the NUL character as its value (rule 27,
    state 149) before it shifts the account; and each of the four [posting]
    rules passes the character of that [optflag], its second symbol, as the
    last argument of the [posting] call, with the format [b]: so a posting
    without a flag hands the Builder the character NUL, not None.  On the
    samples: the transactions written with TXN and with ASTERISK get the
    flag [*], and the two postings of Scenario A the flag NUL. *)
Theorem txn_and_posting_flags :
  (forall yy_filename yy_firstline builder p f s t rest,
      yystack p = f :: s -> f_state f = 14 -> pending p = t :: rest ->
      tok_kind t = TXN \/ tok_kind t = ASTERISK ->
      depth (f :: s) + 1 < YYMAXDEPTH ->
      exists p',
        pushes yy_filename yy_firstline builder p p' 53 (VChar star) rest) /\
  (forall yy_filename yy_firstline builder p f s t rest,
      yystack p = f :: s -> f_state f = 140 -> pending p = t :: rest ->
      tok_kind t = ACCOUNT ->
      depth (f :: s) + 2 < YYMAXDEPTH ->
      exists p' loc,
        runs yy_filename yy_firstline builder p p' /\
        yystack p' =
          mkFrame 160 (tok_val t) (tok_loc t) :: mkFrame 149 (VChar zero) loc
          :: f :: s /\
        pending p' = rest /\ calls p' = calls p) /\
  (forall yy_filename yy_firstline yyn s yyloc lineno,
      In yyn [30; 31; 32; 33] ->
      exists a,
        yyaction yy_filename yy_firstline yyn s yyloc lineno
        = BUILDY "posting"
            (a ++ [arg_b (character_of (yyvsp s (2 - idx yyr2 yyn)))])) /\
  map (fun c => nth 3 (args c) (arg_i 0))
      (calls_of "transaction" (parse_free (txn_with (kw TXN 1))))
  = [arg_b star] /\
  map (fun c => nth 3 (args c) (arg_i 0))
      (calls_of "transaction" (parse_free (txn_with (kw ASTERISK 1))))
  = [arg_b star] /\
  map (fun c => nth 6 (args c) (arg_i 0))
      (calls_of "posting" (parse_free scenario_A))
  = [arg_b zero; arg_b zero].
Proof.
  split; [ | split; [ | split; [ | vm_compute; repeat split; reflexivity ] ] ].
  - intros file firstline builder p f s t rest Hs Hf Hp Hk Hd.
    assert (N : needs_lookahead (f_state f) = true) by (rewrite Hf; reflexivity).
    assert (Sh : exists n r,
               yybackup_action (f_state f) (symbol_of (tok_kind t)) = Shift n /\
               n <> YYFINAL /\
               (forall x, lalr_decision n x = Reduce r) /\
               (forall fr st lc ln, yyaction file firstline r (fr :: st) lc ln
                                    = act_assign (VChar star)) /\
               idx yyr2 r = 1 /\ idx yyr1 r = 53).
    { rewrite Hf. destruct Hk as [-> | ->];
        [ exists 43, 3 | exists 41, 5 ];
        repeat split; try reflexivity; discriminate. }
    destruct Sh as (n & r & A & Fn & Dr & Ar & L2 & L1).
    destruct (yystep_shift file firstline builder p f s t rest n Hs Hp N A Fn Hd)
      as (p1 & S1 & K1 & P1 & C1).
    destruct (yystep_reduce file firstline builder p1 _ _ r (VChar star) f s K1)
      as (p2 & S2 & K2 & P2 & C2).
    + apply Dr.
    + intro ln. rewrite Ar. reflexivity.
    + rewrite L2. reflexivity.
    + rewrite L1, Hf. discriminate.
    + lia.
    + exists p2. split; [ | split; [ | split ] ].
      * eapply runs_trans; apply runs_step; eassumption.
      * rewrite K2, Hs, L1, Hf. eexists. reflexivity.
      * congruence.
      * congruence.
  - intros file firstline builder p f s t rest Hs Hf Hp Hk Hd.
    destruct (yystep_reduce file firstline builder p f s 2 VUninit f s Hs)
      as (p1 & S1 & K1 & P1 & C1);
      [ rewrite (next_symbol_pending _ _ Hp), Hf, Hk; reflexivity
      | intro; reflexivity | reflexivity | rewrite Hf; discriminate
      | lia | ].
    rewrite Hf in K1.
    destruct (yystep_reduce file firstline builder p1 _ _ 27 (VChar zero) f s K1)
      as (p2 & S2 & K2 & P2 & C2);
      [ reflexivity | intro; reflexivity | reflexivity | rewrite Hf; discriminate
      | lia | ].
    rewrite Hf in K2.
    destruct (yystep_shift file firstline builder p2 _ _ t rest 160 K2)
      as (p3 & S3 & K3 & P3 & C3);
      [ congruence | reflexivity | rewrite Hk; reflexivity | discriminate
      | unfold depth in *; cbn [List.length] in *; lia | ].
    exists p3. eexists. split; [ | split; [ | split ] ].
    + eapply runs_trans; [ apply runs_step; eassumption | ].
      eapply runs_trans; apply runs_step; eassumption.
    + rewrite K3. reflexivity.
    + exact P3.
    + congruence.
  - intros file firstline yyn s yyloc lineno H. cbn in H.
    destruct H as [<- | [<- | [<- | [<- | []]]]].
    + exists [arg_s file; arg_i (first_line yyloc + firstline);
              arg_O (pyobj_of (yyvsp s (-2))); arg_O (pyobj_of (yyvsp s (-1)));
              arg_O Py_None; arg_O Py_False].
      reflexivity.
    + exists [arg_s file; arg_i (first_line yyloc + firstline);
              arg_O (pyobj_of (yyvsp s (-4))); arg_O (pyobj_of (yyvsp s (-3)));
              arg_O (pyobj_of (yyvsp s (-1))); arg_O Py_False].
      reflexivity.
    + exists [arg_s file; arg_i (first_line yyloc + firstline);
              arg_O (pyobj_of (yyvsp s (-4))); arg_O (pyobj_of (yyvsp s (-3)));
              arg_O (pyobj_of (yyvsp s (-1))); arg_O Py_True].
      reflexivity.
    + exists [arg_s file; arg_i (first_line yyloc + firstline);
              arg_O (pyobj_of (yyvsp s (-1))); arg_O Py_None; arg_O Py_None;
              arg_O Py_False].
      reflexivity.
Qed.

(** C10 on a transaction written with TXN, once its date is shifted, and on
    the second posting of Scenario A. *)
Lemma txn_and_posting_flags_witness :
  (exists p',
     pushes "ledger.beancount" 0 free_builder
       (after_date (txn_with (kw TXN 1))) p' 53 (VChar star)
       (tl (pending (after_date (txn_with (kw TXN 1)))))) /\
  (exists p',
     runs "ledger.beancount" 0 free_builder at_posting p' /\
     map f_state (firstn 2 (yystack p')) = [160; 149] /\
     map f_val (firstn 2 (yystack p'))
     = [VObj (PyUnicode "Expenses:Restaurant"); VChar zero]).
Proof.
  split.
  - apply (proj1 txn_and_posting_flags "ledger.beancount"%string 0 free_builder
             (after_date (txn_with (kw TXN 1)))
             (hd (mkFrame 0 VUninit (mkLoc 0 0 0 0))
                 (yystack (after_date (txn_with (kw TXN 1)))))
             (tl (yystack (after_date (txn_with (kw TXN 1)))))
             (kw TXN 1)).
    + vm_compute; reflexivity.
    + reflexivity.
    + vm_compute; reflexivity.
    + left; reflexivity.
    + vm_compute; reflexivity.
  - destruct (proj1 (proj2 txn_and_posting_flags) "ledger.beancount"%string 0
                free_builder at_posting
                (hd (mkFrame 0 VUninit (mkLoc 0 0 0 0)) (yystack at_posting))
                (tl (yystack at_posting))
                (hd (kw EOL 0) (pending at_posting))
                (tl (pending at_posting)))
      as (p' & loc & R & S & _).
    + vm_compute; reflexivity.
    + vm_compute; reflexivity.
    + vm_compute; reflexivity.
    + vm_compute; reflexivity.
    + vm_compute; reflexivity.
    + exists p'. split; [ exact R | ]. rewrite S. split; vm_compute; reflexivity.
Defined.
